(** * update-task-dns: a shallow embedding of the Lambda handler

    The program is one asynchronous handler (src/update-task-dns.js) that,
    for an ECS task-state-change event, reads the tags of the task, resolves
    the public address of the task and upserts an A record in Route 53.

    Values are typed after the shapes the AWS SDK hands to the code: every
    member of an event or of a response may be absent ([None] stands for the
    JavaScript [undefined]).  The three service clients are a record of
    functions from a request to a settled promise; the handler is written in
    a small trace-and-exception monad, so that every [console.log], every
    request that is sent and every promise that settles is visible in the
    trace, in program order. *)

From stdpp Require Import base option list strings gmap.


(** ** JavaScript strings *)

Module Js.

(** Template-literal conversion [`${x}`] of a value that is a string or
    [undefined]. *)
Definition toStr (x : option string) : string :=
  match x with
  | Some s => s
  | None => "undefined"
  end.

(** [!!x] for a value that is a string or [undefined]: the empty string and
    [undefined] are falsy. *)
Definition truthy (x : option string) : bool :=
  match x with
  | Some s => negb (String.eqb s "")
  | None => false
  end.

(** [s.split(sep)] for a non-empty separator [sep] (the two separators of
    the program are ASCII constants, so splitting the UTF-8 bytes and
    splitting the UTF-16 code units cut at the same places).  [skip] counts
    the characters of a separator occurrence that are still to be dropped,
    [cur] is the piece being collected. *)
Fixpoint split_go (sep : string) (skip : nat) (cur : string) (s : string)
  : list string :=
  match s with
  | EmptyString => [cur]
  | String c s' =>
      match skip with
      | S k => split_go sep k cur s'
      | O =>
          if String.prefix sep s
          then cur :: split_go sep (String.length sep - 1) "" s'
          else split_go sep 0 (cur +:+ String c "") s'
      end
  end.

Definition split (sep : string) (s : string) : list string :=
  split_go sep 0 "" s.

(** The string that holds one double quotation mark (character 34). *)
Definition quote : string := String (Ascii.ascii_of_nat 34) EmptyString.

(** [l.join(sep)] for a list of strings. *)
Fixpoint join (sep : string) (l : list string) : string :=
  match l with
  | [] => ""
  | [x] => x
  | x :: l' => x +:+ sep +:+ join sep l'
  end.

(** [sep] occurs in [s]. *)
Definition occurs (sep s : string) : Prop :=
  ∃ a b, s = a +:+ sep +:+ b.

End Js.

(** ** Data model *)

(** The incoming event: [event.detail] is the task. *)
Record KeyValuePair := {
  kv_name : option string;
  kv_value : option string
}.

Record Attachment := {
  att_type : option string;
  att_details : option (list KeyValuePair)
}.

Record Task := {
  task_clusterArn : option string;
  task_taskArn : option string;
  task_containerInstanceArn : option string;
  task_attachments : option (list Attachment);
  task_group : option string
}.

Record Event := {
  ev_detail : option Task
}.

(** [ecs.listTagsForResource] *)
Record Tag := {
  tag_key : option string;
  tag_value : option string
}.

Record ListTagsResponse := {
  lt_tags : option (list Tag)
}.

(** [ec2.describeNetworkInterfaces] *)
Record Association := {
  as_PublicIp : option string
}.

Record PrivateIpAddress := {
  pia_Association : option Association
}.

Record NetworkInterface := {
  ni_PrivateIpAddresses : option (list PrivateIpAddress)
}.

Record NetworkInterfacesResult := {
  nir_NetworkInterfaces : option (list NetworkInterface)
}.

(** [ecs.describeContainerInstances] *)
Record ContainerInstance := {
  ci_ec2InstanceId : option string
}.

Record ContainerInstancesResponse := {
  cir_containerInstances : option (list ContainerInstance)
}.

(** [ec2.describeInstances] *)
Record Instance := {
  in_PublicIpAddress : option string
}.

Record Reservation := {
  rs_Instances : option (list Instance)
}.

Record InstancesResult := {
  ir_Reservations : option (list Reservation)
}.

(** [route53.changeResourceRecordSets]: the request built by
    [createRecordSet] and [updateDnsRecord]; the answer is only logged. *)
Record ResourceRecord := {
  rr_Value : option string
}.

Record ResourceRecordSet := {
  rrs_Name : option string;
  rrs_Type : string;
  rrs_TTL : Z;
  rrs_ResourceRecords : list ResourceRecord
}.

Record Change := {
  ch_Action : string;
  ch_ResourceRecordSet : ResourceRecordSet
}.

Record ChangeBatch := {
  cb_Comment : string;
  cb_Changes : list Change
}.

Record ChangeParam := {
  cp_ChangeBatch : ChangeBatch;
  cp_HostedZoneId : option string
}.

Record ChangeResult := {
  cr_ChangeInfo : option string
}.

(** ** Effects: trace, exceptions, promises *)

(** The requests the program sends, with the parameters it passes. *)
Inductive Request :=
| ListTagsForResource (resourceArn : option string)
| DescribeNetworkInterfaces (NetworkInterfaceIds : list (option string))
| DescribeContainerInstances (containerInstances : list (option string))
                             (cluster : option string)
| DescribeInstances (InstanceIds : list (option string))
| ChangeResourceRecordSets (param : ChangeParam).

(** What [console.log] receives: a finished line (a template literal), or a
    format string with its argument ([%j], [%s]). *)
Inductive LogArg :=
| ArgEvent (e : Event)
| ArgInstances (d : InstancesResult)
| ArgChange (r : option ChangeResult)
| ArgStr (s : option string).

Inductive LogLine :=
| Line (s : string)
| Fmt (fmt : string) (arg : LogArg).

Inductive Ev :=
| Log (l : LogLine)
| Send (r : Request)
| Settle (r : Request) (fulfilled : bool).

(** What an [await]ed expression or a statement can throw. *)
Inductive Exn :=
| TypeError (what : string)
| ReferenceError (name : string)
| AwsError (err : string).

Inductive Res (A : Type) :=
| Val (a : A)
| Throw (e : Exn).
Arguments Val {A} a.
Arguments Throw {A} e.

(** A promise returned by [.promise()], once settled.  A fulfilled promise
    carries the response, which the program itself tests with [!data]. *)
Inductive Settled (A : Type) :=
| Fulfilled (data : option A)
| Rejected (err : string).
Arguments Fulfilled {A} data.
Arguments Rejected {A} err.

Definition M (A : Type) : Type := list Ev * Res A.

Definition ret {A} (a : A) : M A := ([], Val a).

Definition throw {A} (e : Exn) : M A := ([], Throw e).

Definition bind {A B} (m : M A) (f : A → M B) : M B :=
  match m with
  | (t, Val a) => let '(t', r) := f a in (t ++ t', r)
  | (t, Throw e) => (t, Throw e)
  end.

Notation "'let*' x ':=' m 'in' k" := (bind m (λ x, k))
  (at level 10, x name, m at level 100, k at level 200).
Notation "'run' m 'in' k" := (bind m (λ _, k))
  (at level 10, m at level 100, k at level 200).

Definition log (l : LogLine) : M unit := ([Log l], Val tt).

(** [await client.op(params).promise()] *)
Definition await {A} (r : Request) (p : Settled A) : M (option A) :=
  match p with
  | Fulfilled data => ([Send r; Settle r true], Val data)
  | Rejected err => ([Send r; Settle r false], Throw (AwsError err))
  end.

(** [x.p] and [x[0]]: reading a member of [undefined] throws. *)
Definition prop {A B} (x : option A) (p : A → B) (what : string) : M B :=
  match x with
  | Some a => ret (p a)
  | None => throw (TypeError what)
  end.

Definition index {A} (x : option (list A)) (i : nat) (what : string)
  : M (option A) :=
  match x with
  | Some l => ret (l !! i)
  | None => throw (TypeError what)
  end.

(** The three service clients.  An invocation calls each operation at most
    once, so an answer that is a function of the request covers every way
    the services can behave during one invocation. *)
Record AWS := {
  ecs_listTagsForResource : option string → Settled ListTagsResponse;
  ec2_describeNetworkInterfaces :
    list (option string) → Settled NetworkInterfacesResult;
  ecs_describeContainerInstances :
    list (option string) → option string → Settled ContainerInstancesResponse;
  ec2_describeInstances : list (option string) → Settled InstancesResult;
  route53_changeResourceRecordSets : ChangeParam → Settled ChangeResult
}.

(** ** The program *)

(** [createRecordSet(domain, publicIp)] *)
Definition createRecordSet (domain publicIp : option string) : Change :=
  {| ch_Action := "UPSERT";
     ch_ResourceRecordSet :=
       {| rrs_Name := domain;
          rrs_Type := "A";
          rrs_TTL := 180;
          rrs_ResourceRecords := [ {| rr_Value := publicIp |} ] |} |}.

(** The tag hash that [fetchTags] builds in a plain object literal.

    [hash[key] = tag['value']] converts [key] to a property key (an absent
    key becomes ["undefined"]) and creates or overwrites the own property,
    with one exception: on an object literal the name ["__proto__"] is the
    accessor inherited from [Object.prototype], whose setter ignores every
    value that is neither an object nor [null]; a tag value is a string or
    absent, so for that key the assignment leaves the hash as it was. *)
Definition tag_put (hash : gmap string (option string)) (tag : Tag)
  : gmap string (option string) :=
  let key := Js.toStr (tag_key tag) in
  if decide (key = "__proto__") then hash
  else <[ key := tag_value tag ]> hash.

(** [_.reduce(collection, iteratee, {})]: an absent collection yields the
    accumulator, a list is folded from its first element to its last. *)
Definition tags_reduce (tags : option (list Tag))
  : gmap string (option string) :=
  match tags with
  | None => ∅
  | Some l => foldl tag_put ∅ l
  end.

(** [tags['domain']]: the own property, [undefined] without one (nothing
    named [domain] or [hostedZoneId] is inherited from [Object.prototype]). *)
Definition tags_get (hash : gmap string (option string)) (k : string)
  : option string :=
  default None (hash !! k).

(** The inner chain of [getEniId]:
    [_.chain(details).filter(name === 'networkInterfaceId').map(value).head()]
    [head] of a list is its first element, [undefined] when it is empty. *)
Definition eniDetail (details : option (list KeyValuePair)) : option string :=
  let named :=
    filter (λ d, kv_name d = Some "networkInterfaceId") (default [] details) in
  default None (head (map kv_value named)).

(** [getEniId(task)] *)
Definition getEniId (task : Task) : option string :=
  let enis :=
    filter (λ a, att_type a = Some "eni") (default [] (task_attachments task)) in
  default None (head (map (λ a, eniDetail (att_details a)) enis)).

Section Handler.

Variable aws : AWS.

(** [fetchTags(arn)] *)
Definition fetchTags (arn : option string)
  : M (gmap string (option string)) :=
  let* response := await (ListTagsForResource arn)
                         (ecs_listTagsForResource aws arn) in
  let* tags := prop response lt_tags "response.tags" in
  ret (tags_reduce tags).

(** [fetchEC2PublicIp(instance)] *)
Definition fetchEC2PublicIp (instance : option string) : M (option string) :=
  let* data := await (DescribeInstances [instance])
                     (ec2_describeInstances aws [instance]) in
  match data with
  | None =>
      run log (Line "Error describing Instance") in
      ret None
  | Some d =>
      run log (Fmt "Received data from describe Instances: %j"
                   (ArgInstances d)) in
      let* reservation := index (ir_Reservations d) 0 "data.Reservations[0]" in
      let* instances :=
        prop reservation rs_Instances "data.Reservations[0].Instances" in
      let* inst := index instances 0 "data.Reservations[0].Instances[0]" in
      let* publicIp :=
        prop inst in_PublicIpAddress
             "data.Reservations[0].Instances[0].PublicIpAddress" in
      run log (Fmt "Got Public Ip Address %s" (ArgStr publicIp)) in
      ret publicIp
  end.

(** [fetchEniPublicIp(eniId)] *)
Definition fetchEniPublicIp (eniId : option string) : M (option string) :=
  let* data := await (DescribeNetworkInterfaces [eniId])
                     (ec2_describeNetworkInterfaces aws [eniId]) in
  let* nis := prop data nir_NetworkInterfaces "data.NetworkInterfaces" in
  let* ni := index nis 0 "data.NetworkInterfaces[0]" in
  let* pias :=
    prop ni ni_PrivateIpAddresses
         "data.NetworkInterfaces[0].PrivateIpAddresses" in
  let* pia := index pias 0 "data.NetworkInterfaces[0].PrivateIpAddresses[0]" in
  let* assoc :=
    prop pia pia_Association
         "data.NetworkInterfaces[0].PrivateIpAddresses[0].Association" in
  prop assoc as_PublicIp
       "data.NetworkInterfaces[0].PrivateIpAddresses[0].Association.PublicIp".

(** [fetchContainerPublicIp(params)], with [params] the pair of
    [containerInstances] and [cluster].  The two messages that mention
    [cluster] and [instance] name variables that are declared nowhere (the
    declaration of [params] that bound them is commented out): evaluating
    such a template literal throws a ReferenceError at its first variable,
    before anything is logged. *)
Definition fetchContainerPublicIp (containerInstances : list (option string))
    (cluster : option string) : M (option string) :=
  let* data := await (DescribeContainerInstances containerInstances cluster)
                     (ecs_describeContainerInstances aws containerInstances
                                                     cluster) in
  match data with
  | None => throw (ReferenceError "cluster")
  | Some d =>
      let* ci :=
        index (cir_containerInstances d) 0 "data.containerInstances[0]" in
      let* ec2Id :=
        prop ci ci_ec2InstanceId "data.containerInstances[0].ec2InstanceId" in
      run log (Line ("Fetched ec2InstanceId " +:+ Js.toStr ec2Id)) in
      if negb (Js.truthy ec2Id) then throw (ReferenceError "instance")
      else
        let* publicIp := fetchEC2PublicIp ec2Id in
        if negb (Js.truthy publicIp) then
          run log (Line ("Could not fetch public IP for instance "
                         +:+ Js.toStr ec2Id)) in
          ret None
        else ret publicIp
  end.

(** [updateDnsRecord(clusterName, hostedZoneId, changeRecordSet)] *)
Definition updateDnsRecord (clusterName hostedZoneId : option string)
    (changeRecordSet : Change) : M unit :=
  let param :=
    {| cp_ChangeBatch :=
         {| cb_Comment := "Auto generated Record for ECS cluster "
                          +:+ Js.toStr clusterName;
            cb_Changes := [changeRecordSet] |};
       cp_HostedZoneId := hostedZoneId |} in
  let* updateResult :=
    await (ChangeResourceRecordSets param)
          (route53_changeResourceRecordSets aws param) in
  log (Fmt "updateResult: %j" (ArgChange updateResult)).

(** Lines 57-64 of [exports.handler]: what follows the two branches that
    assign [taskPublicIp]. *)
Definition submit (task : Task) (clusterName domain hostedZoneId : option string)
    (taskPublicIp : option string) : M unit :=
  let* parts := prop (task_group task) (Js.split ":") "task.group.split" in
  let serviceName := parts !! 1%nat in
  run log (Line ("task:" +:+ Js.toStr serviceName +:+ " public-id: "
                 +:+ Js.toStr taskPublicIp)) in
  let recordSet := createRecordSet domain taskPublicIp in
  run updateDnsRecord clusterName hostedZoneId recordSet in
  log (Line ("DNS record update finished for " +:+ Js.toStr domain +:+ " ("
             +:+ Js.toStr taskPublicIp +:+ ")")).

(** Lines 35-56 of [exports.handler]: the branch on the launch type. *)
Definition resolve (task : Task) (clusterArn : option string)
    (k : option string → M unit) : M unit :=
  let eniId := getEniId task in
  let containerInstanceArn := task_containerInstanceArn task in
  if Js.truthy eniId then
    run log (Line ("Fetched eniId " +:+ Js.toStr eniId)) in
    let* taskPublicIp := fetchEniPublicIp eniId in
    run log (Line ("Fetched taskPublicIp " +:+ Js.toStr taskPublicIp)) in
    k taskPublicIp
  else if Js.truthy containerInstanceArn then
    run log (Line ("Fetched containerInstanceArn "
                   +:+ Js.toStr containerInstanceArn)) in
    let* taskPublicIp :=
      fetchContainerPublicIp [containerInstanceArn] clusterArn in
    run log (Line ("Fetched taskPublicIp " +:+ Js.toStr taskPublicIp)) in
    k taskPublicIp
  else
    log (Line "Could not fetch public IP for this task").

(** [exports.handler(event)].  A [return;] fulfils the promise of the
    handler with [undefined], a throw rejects it.  [task.clusterArn] is the
    first member access on [event.detail], so an event without [detail]
    throws there.  The quotation marks that the message of line 31 puts
    around the two tag names are written [Js.quote]. *)
Definition handler (event : Event) : M unit :=
  run log (Fmt "Received event: %j" (ArgEvent event)) in
  match ev_detail event with
  | None => throw (TypeError "task.clusterArn")
  | Some task =>
      let clusterArn := task_clusterArn task in
      let taskArn := task_taskArn task in
      run log (Line ("clusterArn: " +:+ Js.toStr clusterArn +:+ ", taskArn : "
                     +:+ Js.toStr taskArn)) in
      let* parts := prop clusterArn (Js.split ":cluster/") "clusterArn.split" in
      let clusterName := parts !! 1%nat in
      let* tags := fetchTags taskArn in
      let domain := tags_get tags "domain" in
      let hostedZoneId := tags_get tags "hostedZoneId" in
      run log (Line ("cluster: " +:+ Js.toStr clusterName +:+ ", domain: "
                     +:+ Js.toStr domain +:+ ", hostedZone: "
                     +:+ Js.toStr hostedZoneId)) in
      if negb (Js.truthy domain) || negb (Js.truthy hostedZoneId) then
        log (Line ("Skipping. Reason: no " +:+ Js.quote +:+ "domain"
                   +:+ Js.quote +:+ " and/or " +:+ Js.quote +:+ "hostedZoneId"
                   +:+ Js.quote +:+ " tags found for cluster "
                   +:+ Js.toStr clusterArn))
      else
        resolve task clusterArn (submit task clusterName domain hostedZoneId)
  end.

End Handler.

(** ** Observations on a trace *)

(** The requests of a trace, in the order they were sent. *)
Definition sent (tr : list Ev) : list Request :=
  omap (λ e, match e with Send r => Some r | _ => None end) tr.

(** The DNS change requests of a trace. *)
Definition dns_changes (tr : list Ev) : list ChangeParam :=
  omap (λ e, match e with
             | Send (ChangeResourceRecordSets p) => Some p
             | _ => None
             end) tr.

(** The lines logged by a trace. *)
Definition logged (tr : list Ev) : list LogLine :=
  omap (λ e, match e with Log l => Some l | _ => None end) tr.

(** ** Sample worlds *)

(** A Fargate task with a public address, and clients that answer. *)

Module Sample.

Definition task : Task :=
  {| task_clusterArn := Some "arn:aws:ecs:eu-west-1:1:cluster/web";
     task_taskArn := Some "arn:aws:ecs:eu-west-1:1:task/web/7";
     task_containerInstanceArn := None;
     task_attachments :=
       Some [ {| att_type := Some "eni";
                 att_details :=
                   Some [ {| kv_name := Some "subnetId";
                             kv_value := Some "subnet-1" |};
                          {| kv_name := Some "networkInterfaceId";
                             kv_value := Some "eni-1" |} ] |} ];
     task_group := Some "service:web" |}.

Definition event : Event := {| ev_detail := Some task |}.

Definition tags : ListTagsResponse :=
  {| lt_tags :=
       Some [ {| tag_key := Some "domain";
                 tag_value := Some "web.example.org" |};
              {| tag_key := Some "hostedZoneId";
                 tag_value := Some "Z1" |} ] |}.

Definition aws : AWS :=
  {| ecs_listTagsForResource := λ _, Fulfilled (Some tags);
     ec2_describeNetworkInterfaces := λ _,
       Fulfilled (Some {| nir_NetworkInterfaces :=
         Some [ {| ni_PrivateIpAddresses :=
           Some [ {| pia_Association :=
             Some {| as_PublicIp := Some "203.0.113.7" |} |} ] |} ] |});
     ecs_describeContainerInstances := λ _ _,
       Fulfilled (Some {| cir_containerInstances :=
         Some [ {| ci_ec2InstanceId := Some "i-1" |} ] |});
     ec2_describeInstances := λ _,
       Fulfilled (Some {| ir_Reservations :=
         Some [ {| rs_Instances :=
           Some [ {| in_PublicIpAddress := Some "198.51.100.9" |} ] |} ] |});
     route53_changeResourceRecordSets := λ _,
       Fulfilled (Some {| cr_ChangeInfo := Some "PENDING" |}) |}.

End Sample.

(** A response of [listTagsForResource] with one tag, whose key is
    [__proto__]. *)
Definition proto_tags : ListTagsResponse :=
  {| lt_tags := Some [ {| tag_key := Some "__proto__";
                          tag_value := Some "x" |} ] |}.

Definition proto_aws : AWS :=
  {| ecs_listTagsForResource := λ _, Fulfilled (Some proto_tags);
     ec2_describeNetworkInterfaces := λ _, Rejected "unused";
     ecs_describeContainerInstances := λ _ _, Rejected "unused";
     ec2_describeInstances := λ _, Rejected "unused";
     route53_changeResourceRecordSets := λ _, Rejected "unused" |}.

(** A task whose tags carry a hosted zone but no domain. *)
Definition no_domain_aws : AWS :=
  {| ecs_listTagsForResource := λ _,
       Fulfilled (Some {| lt_tags :=
         Some [ {| tag_key := Some "hostedZoneId";
                   tag_value := Some "Z1" |} ] |});
     ec2_describeNetworkInterfaces := ec2_describeNetworkInterfaces Sample.aws;
     ecs_describeContainerInstances :=
       ecs_describeContainerInstances Sample.aws;
     ec2_describeInstances := ec2_describeInstances Sample.aws;
     route53_changeResourceRecordSets :=
       route53_changeResourceRecordSets Sample.aws |}.

Definition sample_change : ChangeParam :=
  {| cp_ChangeBatch :=
       {| cb_Comment := "Auto generated Record for ECS cluster web";
          cb_Changes :=
            [createRecordSet (Some "web.example.org") (Some "203.0.113.7")] |};
     cp_HostedZoneId := Some "Z1" |}.

(** An EC2-launched task whose instance has no public address. *)
Module Private.

Definition task : Task :=
  {| task_clusterArn := Some "arn:aws:ecs:eu-west-1:1:cluster/web";
     task_taskArn := Some "arn:aws:ecs:eu-west-1:1:task/web/8";
     task_containerInstanceArn :=
       Some "arn:aws:ecs:eu-west-1:1:container-instance/web/c1";
     task_attachments := Some [];
     task_group := Some "service:web" |}.

Definition event : Event := {| ev_detail := Some task |}.

Definition aws : AWS :=
  {| ecs_listTagsForResource := ecs_listTagsForResource Sample.aws;
     ec2_describeNetworkInterfaces := ec2_describeNetworkInterfaces Sample.aws;
     ecs_describeContainerInstances :=
       ecs_describeContainerInstances Sample.aws;
     ec2_describeInstances := λ _,
       Fulfilled (Some {| ir_Reservations :=
         Some [ {| rs_Instances :=
           Some [ {| in_PublicIpAddress := None |} ] |} ] |});
     route53_changeResourceRecordSets :=
       route53_changeResourceRecordSets Sample.aws |}.

End Private.

(** A task with neither a network interface nor a container instance. *)
Module Bare.

Definition task : Task :=
  {| task_clusterArn := Some "arn:aws:ecs:eu-west-1:1:cluster/web";
     task_taskArn := Some "arn:aws:ecs:eu-west-1:1:task/web/9";
     task_containerInstanceArn := None;
     task_attachments := None;
     task_group := Some "service:web" |}.

Definition event : Event := {| ev_detail := Some task |}.

End Bare.

(** The sample task without its [clusterArn], and without its [group]. *)
Module NoCluster.

Definition task : Task :=
  {| task_clusterArn := None;
     task_taskArn := task_taskArn Sample.task;
     task_containerInstanceArn := None;
     task_attachments := task_attachments Sample.task;
     task_group := task_group Sample.task |}.

Definition event : Event := {| ev_detail := Some task |}.

End NoCluster.

Module NoGroup.

Definition task : Task :=
  {| task_clusterArn := task_clusterArn Sample.task;
     task_taskArn := task_taskArn Sample.task;
     task_containerInstanceArn := None;
     task_attachments := task_attachments Sample.task;
     task_group := None |}.

Definition event : Event := {| ev_detail := Some task |}.

End NoGroup.

(** The sample world with a network-interface lookup that fails. *)
Module Throttled.

Definition aws : AWS :=
  {| ecs_listTagsForResource := ecs_listTagsForResource Sample.aws;
     ec2_describeNetworkInterfaces := λ _, Rejected "RequestLimitExceeded";
     ecs_describeContainerInstances :=
       ecs_describeContainerInstances Sample.aws;
     ec2_describeInstances := ec2_describeInstances Sample.aws;
     route53_changeResourceRecordSets :=
       route53_changeResourceRecordSets Sample.aws |}.

End Throttled.

(** The sample world with a network interface that has an association but
    no public address. *)
Module Unassociated.

Definition aws : AWS :=
  {| ecs_listTagsForResource := ecs_listTagsForResource Sample.aws;
     ec2_describeNetworkInterfaces := λ _,
       Fulfilled (Some {| nir_NetworkInterfaces :=
         Some [ {| ni_PrivateIpAddresses :=
           Some [ {| pia_Association :=
             Some {| as_PublicIp := None |} |} ] |} ] |});
     ecs_describeContainerInstances :=
       ecs_describeContainerInstances Sample.aws;
     ec2_describeInstances := ec2_describeInstances Sample.aws;
     route53_changeResourceRecordSets :=
       route53_changeResourceRecordSets Sample.aws |}.

End Unassociated.

(** The sample world with a container instance that names no EC2 instance. *)
Module Detached.

Definition aws : AWS :=
  {| ecs_listTagsForResource := ecs_listTagsForResource Sample.aws;
     ec2_describeNetworkInterfaces := ec2_describeNetworkInterfaces Sample.aws;
     ecs_describeContainerInstances := λ _ _,
       Fulfilled (Some {| cir_containerInstances :=
         Some [ {| ci_ec2InstanceId := None |} ] |});
     ec2_describeInstances := ec2_describeInstances Sample.aws;
     route53_changeResourceRecordSets :=
       route53_changeResourceRecordSets Sample.aws |}.

End Detached.

(** The sample world with two [domain] tags. *)
Module Duplicated.

Definition tags : ListTagsResponse :=
  {| lt_tags :=
       Some [ {| tag_key := Some "domain";
                 tag_value := Some "old.example.org" |};
              {| tag_key := Some "hostedZoneId"; tag_value := Some "Z1" |};
              {| tag_key := Some "domain";
                 tag_value := Some "new.example.org" |} ] |}.

Definition aws : AWS :=
  {| ecs_listTagsForResource := λ _, Fulfilled (Some tags);
     ec2_describeNetworkInterfaces := ec2_describeNetworkInterfaces Sample.aws;
     ecs_describeContainerInstances :=
       ecs_describeContainerInstances Sample.aws;
     ec2_describeInstances := ec2_describeInstances Sample.aws;
     route53_changeResourceRecordSets :=
       route53_changeResourceRecordSets Sample.aws |}.

End Duplicated.

(** The sample world with further tags, one of them without a key. *)
Module Labelled.

Definition tags : ListTagsResponse :=
  {| lt_tags :=
       Some [ {| tag_key := Some "owner"; tag_value := Some "team-a" |};
              {| tag_key := Some "hostedZoneId"; tag_value := Some "Z1" |};
              {| tag_key := None; tag_value := Some "stray" |};
              {| tag_key := Some "domain";
                 tag_value := Some "web.example.org" |} ] |}.

Definition aws : AWS :=
  {| ecs_listTagsForResource := λ _, Fulfilled (Some tags);
     ec2_describeNetworkInterfaces := ec2_describeNetworkInterfaces Sample.aws;
     ecs_describeContainerInstances :=
       ecs_describeContainerInstances Sample.aws;
     ec2_describeInstances := ec2_describeInstances Sample.aws;
     route53_changeResourceRecordSets :=
       route53_changeResourceRecordSets Sample.aws |}.

End Labelled.

(** The sample world with a network interface that has no association at
    all, as in a private subnet. *)
Module Unlinked.

Definition aws : AWS :=
  {| ecs_listTagsForResource := ecs_listTagsForResource Sample.aws;
     ec2_describeNetworkInterfaces := λ _,
       Fulfilled (Some {| nir_NetworkInterfaces :=
         Some [ {| ni_PrivateIpAddresses :=
           Some [ {| pia_Association := None |} ] |} ] |});
     ecs_describeContainerInstances :=
       ecs_describeContainerInstances Sample.aws;
     ec2_describeInstances := ec2_describeInstances Sample.aws;
     route53_changeResourceRecordSets :=
       route53_changeResourceRecordSets Sample.aws |}.

End Unlinked.

(** ** Vocabulary of the properties *)

(** The reading of [getEniId] in words: look for the first attachment of
    type [eni]; in it, look for the first detail named
    [networkInterfaceId]; the result is the value of that detail, and
    [undefined] when either search finds nothing. *)
Definition getEniId_spec (task : Task) : option string :=
  match list_find (λ a, att_type a = Some "eni")
                  (default [] (task_attachments task)) with
  | None => None
  | Some (_, a) =>
      match list_find (λ d, kv_name d = Some "networkInterfaceId")
                      (default [] (att_details a)) with
      | None => None
      | Some (_, d) => kv_value d
      end
  end.

(** The tags of a list that are stored under the property key [k]. *)
Definition tags_for (k : string) (l : list Tag) : list Tag :=
  filter (λ t, Js.toStr (tag_key t) = k) l.

(** A tag hash lacks a value for [k]: no entry, an entry without a value,
    or an empty value. *)
Definition lacks (tags : gmap string (option string)) (k : string) : Prop :=
  tags_get tags k = None ∨ tags_get tags k = Some "".

Definition skip_line (clusterArn : option string) : LogLine :=
  Line ("Skipping. Reason: no " +:+ Js.quote +:+ "domain" +:+ Js.quote
        +:+ " and/or " +:+ Js.quote +:+ "hostedZoneId" +:+ Js.quote
        +:+ " tags found for cluster " +:+ Js.toStr clusterArn).

(** The change that the handler submits for a domain and an address. *)
Definition upsert_of (domain ip : option string) : Change :=
  {| ch_Action := "UPSERT";
     ch_ResourceRecordSet :=
       {| rrs_Name := domain;
          rrs_Type := "A";
          rrs_TTL := 180;
          rrs_ResourceRecords := [ {| rr_Value := ip |} ] |} |}.

(** The address lookup of the handler returns [ip] and leaves the trace
    [t]: the network-interface lookup when [getEniId] finds an id, the
    container-instance lookup when it finds none and the task carries a
    [containerInstanceArn]. *)
Definition resolves (aws : AWS) (task : Task) (t : list Ev)
    (ip : option string) : Prop :=
  if Js.truthy (getEniId task)
  then fetchEniPublicIp aws (getEniId task) = (t, Val ip)
  else Js.truthy (task_containerInstanceArn task) = true ∧
       fetchContainerPublicIp aws [task_containerInstanceArn task]
                              (task_clusterArn task) = (t, Val ip).


(** The error with which a client rejects a request, if it does. *)
Definition rejection (aws : AWS) (r : Request) : option string :=
  let error {A} (p : Settled A) :=
    match p with Rejected err => Some err | Fulfilled _ => None end in
  match r with
  | ListTagsForResource arn => error (ecs_listTagsForResource aws arn)
  | DescribeNetworkInterfaces ids => error (ec2_describeNetworkInterfaces aws ids)
  | DescribeContainerInstances cis cluster =>
      error (ecs_describeContainerInstances aws cis cluster)
  | DescribeInstances ids => error (ec2_describeInstances aws ids)
  | ChangeResourceRecordSets param =>
      error (route53_changeResourceRecordSets aws param)
  end.

(** A computation lets client errors through: when it sends a request that
    the client rejects, its trace ends with the settling of that request
    and it throws the error of the client. *)
Definition propagates (aws : AWS) {A} (m : M A) : Prop :=
  ∀ r err,
    Send r ∈ m.1 →
    rejection aws r = Some err →
    ∃ pre, m = (pre ++ [Send r; Settle r false], Throw (AwsError err)).

(** How far an invocation has come. *)
Inductive Stage :=
| AtStart      (* nothing sent yet *)
| Tagged       (* the tag lookup has been fulfilled *)
| OnInstance   (* the container-instance lookup has been fulfilled *)
| Resolved     (* the address lookup is complete *)
| Submitted    (* the DNS change has been fulfilled *)
| Failed.      (* a request has been rejected *)

#[global] Instance Stage_eq_dec : EqDecision Stage.
Proof. solve_decision. Defined.

(** The requests a stage allows, and the stage that follows once the
    request has settled. *)
Definition next (s : Stage) (r : Request) (fulfilled : bool) : option Stage :=
  match s, r with
  | AtStart, ListTagsForResource _ =>
      Some (if fulfilled then Tagged else Failed)
  | Tagged, DescribeNetworkInterfaces _ =>
      Some (if fulfilled then Resolved else Failed)
  | Tagged, DescribeContainerInstances _ _ =>
      Some (if fulfilled then OnInstance else Failed)
  | OnInstance, DescribeInstances _ =>
      Some (if fulfilled then Resolved else Failed)
  | Resolved, ChangeResourceRecordSets _ =>
      Some (if fulfilled then Submitted else Failed)
  | _, _ => None
  end.

(** A trace that goes from one stage to another: log lines anywhere, and
    requests that settle before anything else happens. *)
Inductive steps : Stage → list Ev → Stage → Prop :=
| steps_nil s : steps s [] s
| steps_log s l tr s' : steps s tr s' → steps s (Log l :: tr) s'
| steps_call s r b s1 tr s' :
    next s r b = Some s1 →
    steps s1 tr s' →
    steps s (Send r :: Settle r b :: tr) s'.

Definition terminal (s : Stage) : Prop := s = Submitted ∨ s = Failed.

Definition ip_lookup (r : Request) : Prop :=
  match r with
  | DescribeNetworkInterfaces _ | DescribeContainerInstances _ _
  | DescribeInstances _ => True
  | _ => False
  end.

(** The lookups that yield the address: the one of the network interface
    and the one of the instance. *)
Definition ip_lookup_end (r : Request) : Prop :=
  match r with
  | DescribeNetworkInterfaces _ | DescribeInstances _ => True
  | _ => False
  end.

(** The public address that a [describeNetworkInterfaces] answer holds at
    [NetworkInterfaces[0].PrivateIpAddresses[0].Association.PublicIp]. *)
Definition eni_answer (data : NetworkInterfacesResult) (ip : option string)
  : Prop :=
  ∃ ni nis pia pias assoc,
    nir_NetworkInterfaces data = Some (ni :: nis) ∧
    ni_PrivateIpAddresses ni = Some (pia :: pias) ∧
    pia_Association pia = Some assoc ∧
    as_PublicIp assoc = ip.

(** The public address that a [describeInstances] answer holds at
    [Reservations[0].Instances[0].PublicIpAddress]. *)
Definition instance_answer (data : InstancesResult) (ip : option string)
  : Prop :=
  ∃ rs rss inst insts,
    ir_Reservations data = Some (rs :: rss) ∧
    rs_Instances rs = Some (inst :: insts) ∧
    in_PublicIpAddress inst = ip.

(** The address lookup of the handler leaves the trace [t] with the
    outcome [r]. *)
Definition lookup_outcome (aws : AWS) (task : Task) (t : list Ev)
    (r : Res (option string)) : Prop :=
  if Js.truthy (getEniId task)
  then fetchEniPublicIp aws (getEniId task) = (t, r)
  else Js.truthy (task_containerInstanceArn task) = true ∧
       fetchContainerPublicIp aws [task_containerInstanceArn task]
                              (task_clusterArn task) = (t, r).

(** The last line of a successful invocation. *)
Definition finished_line (domain ip : option string) : LogLine :=
  Line ("DNS record update finished for " +:+ Js.toStr domain +:+ " ("
        +:+ Js.toStr ip +:+ ")").

(** The five operations of the clients. *)
Inductive Operation :=
| ListTags | DescribeNIs | DescribeCIs | DescribeIs | ChangeRRSets.

Definition operation (r : Request) : Operation :=
  match r with
  | ListTagsForResource _ => ListTags
  | DescribeNetworkInterfaces _ => DescribeNIs
  | DescribeContainerInstances _ _ => DescribeCIs
  | DescribeInstances _ => DescribeIs
  | ChangeResourceRecordSets _ => ChangeRRSets
  end.




(** The world of [Private], with any answer of Route 53. *)
Definition private_world (route53 : ChangeParam → Settled ChangeResult)
  : AWS :=
  {| ecs_listTagsForResource := ecs_listTagsForResource Private.aws;
     ec2_describeNetworkInterfaces :=
       ec2_describeNetworkInterfaces Private.aws;
     ecs_describeContainerInstances :=
       ecs_describeContainerInstances Private.aws;
     ec2_describeInstances := ec2_describeInstances Private.aws;
     route53_changeResourceRecordSets := route53 |}.

(** ** Proof tools *)

Arguments Js.toStr : simpl never.
Arguments Js.truthy : simpl never.
Arguments Js.split : simpl never.
Arguments tags_get : simpl never.
Arguments tags_reduce : simpl never.
Arguments getEniId : simpl never.
Arguments createRecordSet : simpl never.
Arguments String.append : simpl never.

Arguments fetchEniPublicIp : simpl never.
Arguments fetchContainerPublicIp : simpl never.

(** The next thing a computation waits for: the scrutinee at the head of
    the term. *)
Ltac head_stuck t :=
  lazymatch t with
  | (_, _) => fail "finished"
  | bind ?m _ => head_stuck m
  | match ?x with _ => _ end => head_stuck x
  | await _ ?p => head_stuck p
  | prop ?x _ _ => head_stuck x
  | index ?x _ _ => head_stuck x
  | _ => t
  end.

Ltac unfold_handler :=
  unfold handler, resolve, submit, updateDnsRecord, fetchContainerPublicIp,
    fetchEC2PublicIp, fetchEniPublicIp, fetchTags.

Ltac path_step :=
  lazymatch goal with
  | |- ∀ tr res, ?X = (tr, res) → _ =>
      let x := head_stuck X in destruct x eqn:?
  end; cbn.

(** Every path through the handler, one goal for each. *)
Ltac paths := unfold_handler; cbn; repeat path_step.

(** The outcome of a computation, named, with its defining equation as
    the first hypothesis of the goal. *)
Ltac outcome f :=
  let E := fresh "E" in
  destruct f as [? ?] eqn:E;
  revert E;
  lazymatch goal with
  | |- _ = (?t, ?r) → _ => revert t r
  end.

(** Reads [l !! 0] off the shape of [l]. *)
Ltac head_nonempty :=
  repeat match goal with
    | H : ?l !! 0 = Some _ |- _ => destruct l; simplify_eq/=
    | H : ?l !! 0 = None |- _ => destruct l; simplify_eq/=
    end.

Ltac in_trace := apply list_elem_of_In; cbn; tauto.

(** ** Strings *)

Example split_cluster_arn :
  Js.split ":cluster/" "arn:aws:ecs:eu-west-1:1:cluster/web"
  = ["arn:aws:ecs:eu-west-1:1"; "web"].
Proof. reflexivity. Qed.

Example split_group : Js.split ":" "service:web" !! 1%nat = Some "web".
Proof. reflexivity. Qed.

Example split_without_separator : Js.split ":" "web" = ["web"].
Proof. reflexivity. Qed.

Example split_adjacent_separators : Js.split ":" "a::b:" = ["a"; ""; "b"; ""].
Proof. reflexivity. Qed.

Example split_empty : Js.split ":cluster/" "" = [""].
Proof. reflexivity. Qed.

(** The skip message has its four quotation marks, around [domain] and
    around [hostedZoneId]. *)
Example skip_line_quotes :
  ∃ text,
    skip_line (Some "c") = Line text ∧
    String.length text = 76%nat ∧
    Forall (λ i, String.get i text = Some (Ascii.ascii_of_nat 34))
           [21; 28; 37; 50]%nat.
Proof.
  eexists. split; [reflexivity|]. split; [reflexivity|].
  by repeat constructor.
Qed.

(** ** getEniId *)

Lemma head_map_filter {A B} (P : A → Prop) `{!∀ x, Decision (P x)}
    (f : A → B) (l : list A) :
  head (map f (filter P l)) = (f ∘ snd) <$> list_find P l.
Proof.
  induction l as [|x l IH]; [done|].
  rewrite filter_cons. cbn [list_find].
  destruct (decide (P x)); [done|].
  rewrite IH. by destruct (list_find P l) as [[i y]|].
Qed.

Lemma eniDetail_first (details : option (list KeyValuePair)) :
  eniDetail details =
  match list_find (λ d, kv_name d = Some "networkInterfaceId")
                  (default [] details) with
  | None => None
  | Some (_, d) => kv_value d
  end.
Proof.
  unfold eniDetail. rewrite head_map_filter.
  by destruct (list_find _ _) as [[i d]|].
Qed.

(** C8: [getEniId] returns the value of the first detail named
    [networkInterfaceId] of the first attachment of type [eni]; without an
    attachment of that type, or without such a detail in the first one, it
    returns [undefined], whatever the later attachments hold. *)
Theorem getEniId_first_eni (task : Task) :
  getEniId task = getEniId_spec task.
Proof.
  unfold getEniId, getEniId_spec. rewrite head_map_filter.
  destruct (list_find _ _) as [[i a]|]; [|done].
  cbn. apply eniDetail_first.
Qed.

(** Later attachments of type [eni] are not consulted, even when the first
    one has no network-interface detail. *)
Example getEniId_ignores_later :
  getEniId {| task_clusterArn := None; task_taskArn := None;
              task_containerInstanceArn := None;
              task_attachments :=
                Some [ {| att_type := Some "eni"; att_details := Some [] |};
                       {| att_type := Some "eni";
                          att_details :=
                            Some [ {| kv_name := Some "networkInterfaceId";
                                      kv_value := Some "eni-2" |} ] |} ];
              task_group := None |} = None.
Proof. reflexivity. Qed.

(** ** fetchTags *)

Lemma tags_reduce_snoc (l : list Tag) (t : Tag) :
  tags_reduce (Some (l ++ [t])) = tag_put (tags_reduce (Some l)) t.
Proof. unfold tags_reduce. by rewrite foldl_snoc. Qed.

(** For every key but [__proto__] the hash holds the value of the last tag
    of the list that carries the key, and nothing for a key no tag carries. *)
Lemma tags_reduce_lookup (l : list Tag) (k : string) :
  k ≠ "__proto__" →
  tags_reduce (Some l) !! k = tag_value <$> last (tags_for k l).
Proof.
  intros Hk. induction l as [|t l IH] using rev_ind; [done|].
  rewrite tags_reduce_snoc. unfold tags_for in *. rewrite filter_app.
  unfold tag_put. rewrite filter_cons, filter_nil.
  destruct (decide (Js.toStr (tag_key t) = k)) as [->|Hne].
  - rewrite decide_False by done.
    by rewrite lookup_insert_eq, last_snoc.
  - rewrite app_nil_r. case_decide; [done|].
    by rewrite lookup_insert_ne.
Qed.

(** The key [__proto__] never becomes an entry of the hash. *)
Lemma tags_reduce_proto (tags : option (list Tag)) :
  tags_reduce tags !! "__proto__" = None.
Proof.
  destruct tags as [l|]; [|done].
  induction l as [|t l IH] using rev_ind; [done|].
  rewrite tags_reduce_snoc. unfold tag_put.
  case_decide as Hk; [done|]. by rewrite lookup_insert_ne.
Qed.

(** An empty or absent tag list yields the empty hash. *)
Lemma tags_reduce_empty :
  tags_reduce None = ∅ ∧ tags_reduce (Some []) = ∅.
Proof. done. Qed.

(** C10, at a tag whose key is [__proto__]: [fetchTags] returns a hash
    without an entry for that key, although the response carries it (the hash
    is the empty one). *)
Theorem fetchTags_drops_proto_key :
  ∃ tr hash,
    fetchTags proto_aws (Some "arn") = (tr, Val hash) ∧
    hash !! "__proto__" = None ∧ hash = ∅.
Proof. eexists _, _. split; [reflexivity|]. by split. Qed.

(** ** The handler *)


Lemma dns_changes_app (t1 t2 : list Ev) :
  dns_changes (t1 ++ t2) = dns_changes t1 ++ dns_changes t2.
Proof. apply omap_app. Qed.

(** *** Missing tags *)

Lemma lacks_falsy tags k : lacks tags k ↔ Js.truthy (tags_get tags k) = false.
Proof.
  unfold lacks, Js.truthy. destruct (tags_get tags k) as [[|c s]|]; cbn.
  - split; [done|]. by right.
  - split; [|done]. by intros [?|?].
  - split; [done|]. by left.
Qed.

(** C2: when the tags fetched for the task lack [domain] or [hostedZoneId],
    the handler logs the skip message and returns: its promise is fulfilled,
    the tag lookup is the only request it has sent, and no DNS change is
    among its requests. *)
Theorem missing_tags_return_early (aws : AWS) (event : Event) (task : Task)
    (arn : string) (resp : ListTagsResponse) :
  ev_detail event = Some task →
  task_clusterArn task = Some arn →
  ecs_listTagsForResource aws (task_taskArn task) = Fulfilled (Some resp) →
  lacks (tags_reduce (lt_tags resp)) "domain" ∨
  lacks (tags_reduce (lt_tags resp)) "hostedZoneId" →
  ∃ tr,
    handler aws event = (tr, Val tt) ∧
    sent tr = [ListTagsForResource (task_taskArn task)] ∧
    dns_changes tr = [] ∧
    last tr = Some (Log (skip_line (Some arn))).
Proof.
  intros Hd Hc Ht Hm.
  unfold handler, fetchTags. rewrite Hd, Hc. cbn. rewrite Ht. cbn.
  assert (negb (Js.truthy (tags_get (tags_reduce (lt_tags resp)) "domain"))
          || negb (Js.truthy (tags_get (tags_reduce (lt_tags resp))
                                       "hostedZoneId")) = true) as ->.
  { destruct Hm as [Hm | Hm]; apply lacks_falsy in Hm; rewrite Hm; [done|].
    apply orb_true_r. }
  cbn. eexists. split; [reflexivity|]. done.
Qed.

Lemma missing_tags_return_early_witness :
  ∃ tr,
    handler no_domain_aws Sample.event = (tr, Val tt) ∧
    sent tr = [ListTagsForResource (task_taskArn Sample.task)] ∧
    dns_changes tr = [] ∧
    last tr = Some (Log (skip_line
                           (Some "arn:aws:ecs:eu-west-1:1:cluster/web"))).
Proof.
  eapply (missing_tags_return_early no_domain_aws Sample.event Sample.task).
  - reflexivity.
  - reflexivity.
  - reflexivity.
  - left. left. vm_compute. reflexivity.
Defined.

(** *** The DNS change request *)

(** The DNS change requests of an invocation: none, or the single one
    that [updateDnsRecord] builds from the tags and the resolved address. *)
Lemma handler_dns_changes (aws : AWS) (event : Event) :
  dns_changes (handler aws event).1 = [] ∨
  ∃ task arn tags t ip,
    ev_detail event = Some task ∧
    task_clusterArn task = Some arn ∧
    fetchTags aws (task_taskArn task) = (t, Val tags) ∧
    Js.truthy (tags_get tags "domain") = true ∧
    Js.truthy (tags_get tags "hostedZoneId") = true ∧
    (∃ t', resolves aws task t' ip) ∧
    is_Some (task_group task) ∧
    dns_changes (handler aws event).1 =
      [ {| cp_ChangeBatch :=
             {| cb_Comment := "Auto generated Record for ECS cluster "
                              +:+ Js.toStr (Js.split ":cluster/" arn !! 1%nat);
                cb_Changes := [createRecordSet (tags_get tags "domain") ip] |};
           cp_HostedZoneId := tags_get tags "hostedZoneId" |} ].
Proof.
  destruct (handler aws event) as [tr res] eqn:Hh. revert tr res Hh.
  paths.
  all: intros tr res [= <- <-]; cbn; try (by left).
  all: right; eexists _, _, _, _, _.
  all: split; [reflexivity|]; split; [eassumption|].
  all: unfold resolves, fetchEniPublicIp, fetchContainerPublicIp,
         fetchEC2PublicIp, fetchTags.
  all: repeat match goal with
         | H : negb _ || negb _ = false |- _ =>
             apply orb_false_elim in H as [?%negb_false_iff ?%negb_false_iff]
         | H : negb _ = false |- _ => apply negb_false_iff in H
         end.
  all: repeat (match goal with H : ?x = _ |- context [?x] => rewrite H end;
               cbn).
  all: eauto 12.
Qed.



(** The shape of the requests in every invocation: no DNS change request
    or exactly one; the change batch of that one holds exactly one change,
    the upsert of an A record with TTL 180 whose name is the [domain] tag
    and whose single value is what the address lookup returned, which can
    be [undefined]. *)
Theorem one_upsert_at_most (aws : AWS) (event : Event) :
  dns_changes (handler aws event).1 = [] ∨
  ∃ p task tags t ip,
    dns_changes (handler aws event).1 = [p] ∧
    ev_detail event = Some task ∧
    fetchTags aws (task_taskArn task) = (t, Val tags) ∧
    (∃ t', resolves aws task t' ip) ∧
    cb_Changes (cp_ChangeBatch p) = [upsert_of (tags_get tags "domain") ip].
Proof.
  destruct (handler_dns_changes aws event)
    as [Hnone | (task & arn & tags & t & ip & Hd & _ & Ht & _ & _ & Hip & _
                 & Hone)];
    [by left|].
  right. eexists _, task, tags, t, ip. by repeat split.
Qed.

(** The sample invocation does submit its one request. *)
Example sample_upsert :
  dns_changes (handler Sample.aws Sample.event).1 = [sample_change].
Proof. reflexivity. Qed.

(** C4, at an instance without a public address: whatever Route 53 answers,
    the one DNS change request of the invocation carries a record set whose
    single value is [undefined], not a resolved address. *)
Theorem upsert_without_address
    (route53 : ChangeParam → Settled ChangeResult) :
  ∃ p,
    dns_changes (handler (private_world route53) Private.event).1 = [p] ∧
    cb_Changes (cp_ChangeBatch p) =
      [ {| ch_Action := "UPSERT";
           ch_ResourceRecordSet :=
             {| rrs_Name := Some "web.example.org";
                rrs_Type := "A";
                rrs_TTL := 180;
                rrs_ResourceRecords := [ {| rr_Value := None |} ] |} |} ].
Proof.
  destruct (handler (private_world route53) Private.event) as [tr res] eqn:Hh.
  revert tr res Hh. paths.
  all: intros ? ? [= <- <-].
  all: repeat match goal with
         | H : _ = _ |- _ => vm_compute in H; try discriminate H; clear H
         end.
  all: by eexists.
Qed.

(** *** An address that cannot be resolved *)

(** C3, at an instance without a public address: [fetchContainerPublicIp]
    logs that it could not fetch the address and returns [undefined], and
    the handler goes on to submit an upsert whose record value is
    [undefined]; its promise is fulfilled. *)
Theorem unresolved_ip_is_submitted :
  ∃ tr p,
    handler Private.aws Private.event = (tr, Val tt) ∧
    Line "Could not fetch public IP for instance i-1" ∈ logged tr ∧
    dns_changes tr = [p] ∧
    cb_Changes (cp_ChangeBatch p) = [upsert_of (Some "web.example.org") None].
Proof.
  eexists _, _. split; [vm_compute; reflexivity|].
  split; [|by split]. cbn. apply list_elem_of_In. cbn. tauto.
Qed.

(** The same happens on the Fargate path, with a network interface whose
    association has no public address. *)
Example unresolved_eni_ip_is_submitted :
  ∃ p,
    dns_changes (handler Unassociated.aws Sample.event).1 = [p] ∧
    cb_Changes (cp_ChangeBatch p) = [upsert_of (Some "web.example.org") None].
Proof. by eexists. Qed.

(** A container instance without an EC2 instance id ends the invocation
    with a ReferenceError: the message of line 136 names the undeclared
    [instance]. *)
Example missing_instance_id_throws :
  (handler Detached.aws Private.event).2 = Throw (ReferenceError "instance") ∧
  dns_changes (handler Detached.aws Private.event).1 = [].
Proof. by split. Qed.

(** *** The branch on the launch type *)

Lemma fetchEniPublicIp_sent (aws : AWS) (eniId : option string) t r :
  fetchEniPublicIp aws eniId = (t, r) →
  sent t = [DescribeNetworkInterfaces [eniId]] ∧ dns_changes t = [].
Proof.
  revert t r. unfold fetchEniPublicIp. cbn. repeat path_step.
  all: by intros ? ? [= <- <-].
Qed.

Lemma fetchContainerPublicIp_sent (aws : AWS) cis cluster t r :
  fetchContainerPublicIp aws cis cluster = (t, r) →
  (sent t = [DescribeContainerInstances cis cluster] ∨
   ∃ id, sent t = [DescribeContainerInstances cis cluster;
                   DescribeInstances [id]]) ∧
  dns_changes t = [].
Proof.
  revert t r. unfold fetchContainerPublicIp, fetchEC2PublicIp. cbn.
  repeat path_step.
  all: intros ? ? [= <- <-]; cbn; eauto.
Qed.




Ltac has_value := intros [Hv | Hv]; vm_compute in Hv; discriminate.


(** *** Events that lack a member *)

(** C9: with a task that has no [clusterArn] the handler throws a
    TypeError before it has sent any request; with a task that has no
    [group] no DNS change is ever submitted, and an invocation whose address
    lookup returns throws a TypeError right after that lookup. *)
Theorem handler_is_partial (aws : AWS) (event : Event) (task : Task) :
  ev_detail event = Some task →
  (task_clusterArn task = None →
   ∃ tr what,
     handler aws event = (tr, Throw (TypeError what)) ∧ sent tr = []) ∧
  (task_group task = None →
   dns_changes (handler aws event).1 = [] ∧
   ∀ arn resp t ip,
     task_clusterArn task = Some arn →
     ecs_listTagsForResource aws (task_taskArn task) = Fulfilled (Some resp) →
     ¬ lacks (tags_reduce (lt_tags resp)) "domain" →
     ¬ lacks (tags_reduce (lt_tags resp)) "hostedZoneId" →
     resolves aws task t ip →
     ∃ pre,
       handler aws event =
         (pre ++ t ++ [Log (Line ("Fetched taskPublicIp " +:+ Js.toStr ip))],
          Throw (TypeError "task.group.split"))).
Proof.
  intros Hd. split; [|intros Hgroup; split].
  - intros Hc. unfold handler. rewrite Hd, Hc. cbn. by eexists _, _.
  - destruct (handler_dns_changes aws event)
      as [Hnone | (task' & _ & _ & _ & _ & Hd' & _ & _ & _ & _ & _ & Hg & _)];
      [done|].
    rewrite Hd in Hd'. injection Hd' as <-. rewrite Hgroup in Hg.
    by destruct Hg.
  - intros arn resp t ip Hc Ht Hdom Hhz Hip.
    rewrite lacks_falsy in Hdom, Hhz.
    apply not_false_is_true in Hdom, Hhz.
    unfold resolves in Hip.
    unfold handler, resolve, submit, fetchTags.
    rewrite Hd, Hc. cbn. rewrite Ht. cbn. rewrite Hdom, Hhz. cbn.
    destruct (Js.truthy (getEniId task)).
    + rewrite Hip, Hgroup. cbn.
      by eexists (_ :: _ :: _ :: _ :: _ :: [_]).
    + destruct Hip as [-> Hip]. rewrite Hc in Hip. rewrite Hip, Hgroup. cbn.
      by eexists (_ :: _ :: _ :: _ :: _ :: [_]).
Qed.

Lemma handler_is_partial_witness :
  (∃ tr what,
     handler Sample.aws NoCluster.event = (tr, Throw (TypeError what)) ∧
     sent tr = []) ∧
  dns_changes (handler Sample.aws NoGroup.event).1 = [] ∧
  (∃ pre,
     handler Sample.aws NoGroup.event =
       (pre ++ [Send (DescribeNetworkInterfaces [Some "eni-1"]);
                Settle (DescribeNetworkInterfaces [Some "eni-1"]) true]
            ++ [Log (Line "Fetched taskPublicIp 203.0.113.7")],
        Throw (TypeError "task.group.split"))).
Proof.
  split.
  - by apply (handler_is_partial Sample.aws NoCluster.event NoCluster.task).
  - destruct (handler_is_partial Sample.aws NoGroup.event NoGroup.task eq_refl)
      as [_ Hgroup].
    destruct (Hgroup eq_refl) as [Hnone Hthrow]. split; [exact Hnone|].
    refine (Hthrow _ Sample.tags _ (Some "203.0.113.7") eq_refl eq_refl _ _
                   eq_refl); has_value.
Defined.

(** *** Errors of the service clients *)

Section Propagation.

Variable aws : AWS.

Lemma propagates_silent {A} (t : list Ev) (x : Res A) :
  (∀ r, Send r ∉ t) → propagates aws (t, x).
Proof. intros Hno r err Hin. by destruct (Hno r). Qed.

Lemma propagates_ret {A} (a : A) : propagates aws (ret a).
Proof. apply propagates_silent. intros r Hin. by apply elem_of_nil in Hin. Qed.

Lemma propagates_throw {A} (e : Exn) : propagates aws (@throw A e).
Proof. apply propagates_silent. intros r Hin. by apply elem_of_nil in Hin. Qed.

Lemma propagates_log (l : LogLine) : propagates aws (log l).
Proof.
  apply propagates_silent. intros r Hin.
  by apply list_elem_of_singleton in Hin.
Qed.

Lemma propagates_prop {A B} (x : option A) (p : A → B) what :
  propagates aws (prop x p what).
Proof. destruct x; [apply propagates_ret | apply propagates_throw]. Qed.

Lemma propagates_index {A} (x : option (list A)) i what :
  propagates aws (index x i what).
Proof. destruct x; [apply propagates_ret | apply propagates_throw]. Qed.

Lemma propagates_await {A} (r : Request) (p : Settled A) :
  rejection aws r = match p with Rejected err => Some err | _ => None end →
  propagates aws (await r p).
Proof.
  intros Hr r' err Hin Hrej. destruct p as [data|e]; cbn in *.
  - apply elem_of_cons in Hin as [[= <-]|Hin]; [congruence|].
    by apply list_elem_of_singleton in Hin.
  - apply elem_of_cons in Hin as [[= <-]|Hin].
    + exists []. cbn. congruence.
    + by apply list_elem_of_singleton in Hin.
Qed.

Lemma propagates_bind {A B} (m : M A) (f : A → M B) :
  propagates aws m → (∀ a, propagates aws (f a)) → propagates aws (bind m f).
Proof.
  intros Hm Hf r err Hin Hrej. destruct m as [t [a|e]]; cbn in *.
  - destruct (f a) as [t' x] eqn:Hfa. cbn in Hin.
    apply elem_of_app in Hin as [Hin|Hin].
    + by destruct (Hm r err Hin Hrej) as [pre [= _]].
    + specialize (Hf a r err). rewrite Hfa in Hf.
      destruct (Hf Hin Hrej) as [pre [= -> ->]].
      exists (t ++ pre). by rewrite app_assoc.
  - destruct (Hm r err Hin Hrej) as [pre [= -> ->]]. by exists pre.
Qed.

End Propagation.

Ltac propagate :=
  repeat first
    [ apply propagates_ret | apply propagates_throw | apply propagates_log
    | apply propagates_prop | apply propagates_index
    | apply propagates_await; reflexivity
    | apply propagates_bind; [|intros ?]
    | match goal with
      | |- propagates _ (match ?x with _ => _ end) => destruct x
      end ].

Lemma handler_propagates (aws : AWS) (event : Event) :
  propagates aws (handler aws event).
Proof. unfold_handler. propagate. Qed.

(** C6: when a request that the handler sends is rejected by its client
    (whichever of the five operations it is), the handler does nothing
    after that request has settled, and its own promise is rejected with
    the error of the client. *)
Theorem client_error_propagates (aws : AWS) (event : Event) (r : Request)
    (err : string) :
  Send r ∈ (handler aws event).1 →
  rejection aws r = Some err →
  ∃ pre,
    handler aws event = (pre ++ [Send r; Settle r false],
                         Throw (AwsError err)).
Proof. apply handler_propagates. Qed.

Lemma client_error_propagates_witness :
  ∃ pre,
    handler Throttled.aws Sample.event =
      (pre ++ [Send (DescribeNetworkInterfaces [Some "eni-1"]);
               Settle (DescribeNetworkInterfaces [Some "eni-1"]) false],
       Throw (AwsError "RequestLimitExceeded")).
Proof.
  apply (client_error_propagates Throttled.aws Sample.event).
  - apply list_elem_of_In. vm_compute. tauto.
  - reflexivity.
Defined.

(** *** The order of the requests *)

Lemma steps_send_inv s tr s' pre r post :
  steps s tr s' → tr = pre ++ Send r :: post →
  ∃ s1 b post' s2,
    steps s pre s1 ∧ post = Settle r b :: post' ∧ next s1 r b = Some s2 ∧
    steps s2 post' s'.
Proof.
  intros Hst. revert pre.
  induction Hst as [s|s l tr s' Hst IH|s r0 b0 s1 tr s' Hnext Hst IH];
    intros pre Heq.
  - by destruct pre.
  - destruct pre as [|e pre]; simplify_eq/=.
    destruct (IH pre eq_refl) as (s1 & b & post' & s2 & ? & ? & ? & ?).
    exists s1, b, post', s2. split; [by constructor|done].
  - destruct pre as [|e1 [|e2 pre]]; simplify_eq/=.
    + exists s, b0, tr, s1. split; [constructor|done].
    + destruct (IH pre eq_refl) as (s2 & b & post' & s3 & ? & ? & ? & ?).
      exists s2, b, post', s3. split; [by econstructor|done].
Qed.

Lemma steps_settle_inv s tr s' pre r b post :
  steps s tr s' → tr = pre ++ Settle r b :: post →
  ∃ pre', pre = pre' ++ [Send r].
Proof.
  intros Hst. revert pre.
  induction Hst as [s|s l tr s' Hst IH|s r0 b0 s1 tr s' Hnext Hst IH];
    intros pre Heq.
  - by destruct pre.
  - destruct pre as [|e pre]; simplify_eq/=.
    destruct (IH pre eq_refl) as [pre' ->]. by exists (Log l :: pre').
  - destruct pre as [|e1 [|e2 pre]]; simplify_eq/=.
    + by exists [].
    + destruct (IH pre eq_refl) as [pre' ->].
      by exists (Send r0 :: Settle r0 b0 :: pre').
Qed.

(** Nothing is sent from a terminal stage. *)
Lemma steps_terminal s tr s' :
  steps s tr s' → terminal s → s' = s ∧ ∀ r, Send r ∉ tr.
Proof.
  induction 1 as [s|s l tr s' Hst IH|s r0 b0 s1 tr s' Hnext Hst IH];
    intros Hs.
  - split; [done|]. intros r Hin. by apply elem_of_nil in Hin.
  - destruct (IH Hs) as [-> Hno]. split; [done|].
    intros r [[=]|Hin]%elem_of_cons. by apply (Hno r).
  - by destruct Hs as [-> | ->].
Qed.

(** A stage past the start has seen the tag lookup fulfilled. *)
Lemma steps_tagged tr s' :
  steps AtStart tr s' → s' ≠ AtStart → s' ≠ Failed →
  ∃ arn, Settle (ListTagsForResource arn) true ∈ tr.
Proof.
  remember AtStart as s eqn:Hs. intros Hst. revert Hs.
  induction Hst as [s|s l tr s' Hst IH|s r0 b0 s1 tr s' Hnext Hst IH];
    intros -> Hne Hnf.
  - done.
  - destruct (IH eq_refl Hne Hnf) as [arn Hin]. exists arn. by right.
  - destruct r0; try done. destruct b0; simplify_eq/=.
    + exists resourceArn. right. left.
    + apply steps_terminal in Hst as [-> _]; [done|by right].
Qed.

(** The stage [Resolved] is only entered by a fulfilled lookup that yields
    the address. *)
Lemma steps_resolved s tr :
  steps s tr Resolved → s ≠ Resolved →
  ∃ r, ip_lookup_end r ∧ Settle r true ∈ tr.
Proof.
  remember Resolved as s' eqn:Hs'. intros Hst. revert Hs'.
  induction Hst as [s|s l tr s' Hst IH|s r0 b0 s1 tr s' Hnext Hst IH];
    intros -> Hne.
  - done.
  - destruct (IH eq_refl Hne) as (r & ? & Hin). exists r. split; [done|].
    by right.
  - destruct (decide (s1 = Resolved)) as [->|Hne1].
    + assert (b0 = true ∧ ip_lookup_end r0) as [-> ?]
        by (destruct s, r0, b0; by simplify_eq/=).
      exists r0. split; [done|]. right. left.
    + destruct (IH eq_refl Hne1) as (r & ? & Hin). exists r.
      split; [done|]. by do 2 right.
Qed.

(** Once a DNS change has been sent, the stage is terminal. *)
Lemma steps_changed s tr s' p :
  steps s tr s' → Send (ChangeResourceRecordSets p) ∈ tr → terminal s'.
Proof.
  induction 1 as [s|s l tr s' Hst IH|s r0 b0 s1 tr s' Hnext Hst IH];
    intros Hin.
  - by apply elem_of_nil in Hin.
  - apply elem_of_cons in Hin as [[=]|Hin]. by apply IH.
  - apply elem_of_cons in Hin as [[= <-]|Hin].
    + assert (terminal s1) as Hs1
        by (destruct s, b0; simplify_eq/=; (by left) || (by right)).
      by destruct (steps_terminal _ _ _ Hst Hs1) as [-> _].
    + apply elem_of_cons in Hin as [[=]|Hin]. by apply IH.
Qed.

Lemma handler_steps (aws : AWS) (event : Event) :
  ∃ s, steps AtStart (handler aws event).1 s.
Proof.
  destruct (handler aws event) as [tr res] eqn:Hh. revert tr res Hh.
  paths.
  all: intros ? ? [= <- <-]; cbn; eexists.
  all: repeat first [ apply steps_nil | apply steps_log
                    | eapply steps_call; [reflexivity|] ].
Qed.

(** C7: in the trace of an invocation every request settles before
    anything else happens, so no two requests overlap; an address lookup is
    only sent after the tag lookup has been fulfilled and before any DNS
    change; a DNS change is only sent after the tag lookup and the lookup
    that yields the address have been fulfilled, and nothing is sent after
    it. *)
Theorem requests_in_sequence (aws : AWS) (event : Event) :
  let tr := (handler aws event).1 in
  (∀ pre r post,
     tr = pre ++ Send r :: post → ∃ b post', post = Settle r b :: post') ∧
  (∀ pre r b post,
     tr = pre ++ Settle r b :: post → ∃ pre', pre = pre' ++ [Send r]) ∧
  (∀ pre r post,
     tr = pre ++ Send r :: post → ip_lookup r →
     (∃ arn, Settle (ListTagsForResource arn) true ∈ pre) ∧
     (∀ p, Send (ChangeResourceRecordSets p) ∉ pre)) ∧
  (∀ pre p post,
     tr = pre ++ Send (ChangeResourceRecordSets p) :: post →
     (∃ arn, Settle (ListTagsForResource arn) true ∈ pre) ∧
     (∃ r, ip_lookup_end r ∧ Settle r true ∈ pre) ∧
     (∀ r, Send r ∉ post)).
Proof.
  intros tr. destruct (handler_steps aws event) as [s' Hst]. fold tr in Hst.
  split; [|split; [|split]].
  - intros pre r post Heq.
    destruct (steps_send_inv _ _ _ _ _ _ Hst Heq)
      as (? & b & post' & ? & ? & ? & _).
    by exists b, post'.
  - intros pre r b post Heq. exact (steps_settle_inv _ _ _ _ _ _ _ Hst Heq).
  - intros pre r post Heq Hr.
    destruct (steps_send_inv _ _ _ _ _ _ Hst Heq)
      as (s1 & b & post' & s2 & Hpre & _ & Hnext & _).
    split.
    + apply (steps_tagged _ _ Hpre); by destruct s1, r.
    + intros p Hin.
      destruct (steps_changed _ _ _ _ Hpre Hin) as [-> | ->]; by destruct r.
  - intros pre p post Heq.
    destruct (steps_send_inv _ _ _ _ _ _ Hst Heq)
      as (s1 & b & post' & s2 & Hpre & -> & Hnext & Hpost).
    assert (s1 = Resolved) as -> by by destruct s1.
    split; [|split].
    + by apply (steps_tagged _ _ Hpre).
    + by apply (steps_resolved _ _ Hpre).
    + intros r [[=]|Hin]%elem_of_cons.
      assert (terminal s2) as Hs2
        by (destruct b; simplify_eq/=; (by left) || (by right)).
      destruct (steps_terminal _ _ _ Hpost Hs2) as [_ Hno].
      by destruct (Hno r).
Qed.

(** The sample invocation goes through every stage. *)
Example sample_steps :
  steps AtStart (handler Sample.aws Sample.event).1 Submitted ∧
  sent (handler Sample.aws Sample.event).1 =
    [ ListTagsForResource (task_taskArn Sample.task);
      DescribeNetworkInterfaces [Some "eni-1"];
      ChangeResourceRecordSets sample_change ].
Proof.
  split; [|reflexivity]. cbn.
  repeat first [ apply steps_nil | apply steps_log
               | eapply steps_call; [reflexivity|] ].
Qed.

(** ** Further properties of the code *)

Arguments fetchEC2PublicIp : simpl never.

(** *** Splitting and joining strings *)

Lemma append_cons c (s t : string) : String c s +:+ t = String c (s +:+ t).
Proof. done. Qed.

Lemma append_nil_r (s : string) : s +:+ "" = s.
Proof. induction s as [|c s IH]; [done|]. by rewrite append_cons, IH. Qed.

Lemma append_assoc (a b c : string) : (a +:+ b) +:+ c = a +:+ b +:+ c.
Proof. induction a as [|x a IH]; [done|]. by rewrite !append_cons, IH. Qed.

Lemma length_append_r (a b : string) :
  String.length b ≤ String.length (a +:+ b).
Proof.
  induction a as [|c a IH]; [done|]. rewrite append_cons. cbn. lia.
Qed.

Lemma prefix_app (sep r : string) : String.prefix sep (sep +:+ r) = true.
Proof.
  induction sep as [|c sep IH]; [by destruct r|].
  rewrite append_cons. cbn. by destruct (Ascii.ascii_dec c c).
Qed.

Lemma prefix_split (sep s : string) :
  String.prefix sep s = true → ∃ r, s = sep +:+ r.
Proof.
  revert s. induction sep as [|c sep IH]; intros s Hp.
  - by exists s.
  - destruct s as [|d s]; [done|]. cbn in Hp.
    destruct (Ascii.ascii_dec c d) as [->|]; [|done].
    destruct (IH s Hp) as [r ->]. exists r. by rewrite append_cons.
Qed.

Lemma split_go_skip (sep tl cur rest : string) :
  Js.split_go sep (String.length tl) cur (tl +:+ rest)
  = Js.split_go sep 0 cur rest.
Proof. induction tl as [|c tl IH]; [done|]. rewrite append_cons. exact IH. Qed.

Lemma split_go_cons (sep : string) k cur s :
  ∃ x l, Js.split_go sep k cur s = x :: l.
Proof.
  revert k cur. induction s as [|c s IH]; intros k cur.
  { by exists cur, []. }
  cbn [Js.split_go]. destruct k as [|k]; [|apply IH].
  destruct (String.prefix sep (String c s)); [|apply IH].
  by eexists _, _.
Qed.

Lemma join_cons (sep x y : string) (l : list string) :
  Js.join sep (x :: y :: l) = x +:+ sep +:+ Js.join sep (y :: l).
Proof. done. Qed.

(** One step of the scan, at a position where the separator starts and at
    one where it does not. *)
Lemma split_go_at_sep (sep : string) c sep' cur r :
  sep = String c sep' →
  Js.split_go sep 0 cur (sep +:+ r) = cur :: Js.split_go sep 0 "" r.
Proof.
  intros Hsep. pose proof (prefix_app sep r) as Hp. rewrite Hsep in Hp |- *.
  rewrite append_cons in *.
  cbn [Js.split_go]. rewrite Hp. f_equal.
  cbn [String.length]. rewrite Nat.sub_1_r. cbn [Nat.pred].
  apply split_go_skip.
Qed.

Lemma split_go_off_sep (sep : string) c s cur :
  String.prefix sep (String c s) = false →
  Js.split_go sep 0 cur (String c s)
  = Js.split_go sep 0 (cur +:+ String c "") s.
Proof. intros Hp. cbn [Js.split_go]. by rewrite Hp. Qed.

(** Joining the pieces with the separator gives the string back. *)
Lemma split_go_join (sep : string) :
  sep ≠ "" →
  ∀ n s cur, String.length s ≤ n →
    Js.join sep (Js.split_go sep 0 cur s) = cur +:+ s.
Proof.
  intros Hsep. destruct sep as [|c0 sep'] eqn:Esep; [done|]. rewrite <-Esep.
  induction n as [|n IH]; intros s cur Hlen.
  - destruct s; [|cbn in Hlen; lia]. cbn. by rewrite append_nil_r.
  - destruct s as [|c s]; [cbn; by rewrite append_nil_r|].
    destruct (String.prefix sep (String c s)) eqn:Hp.
    + destruct (prefix_split _ _ Hp) as [r Hr]. rewrite Hr.
      rewrite (split_go_at_sep sep c0 sep' cur r Esep).
      destruct (split_go_cons sep 0 "" r) as (x & l & Hx).
      rewrite Hx, join_cons, <-Hx. rewrite IH; [done|].
      assert (String.length (String c s) = String.length (sep +:+ r)) as Hl
        by by rewrite Hr.
      rewrite Esep in Hl. cbn in Hl, Hlen.
      rewrite append_cons in Hl.
      pose proof (length_append_r sep' r). cbn in Hl. lia.
    + rewrite (split_go_off_sep _ _ _ _ Hp).
      rewrite IH by (cbn in Hlen; lia).
      by rewrite append_assoc.
Qed.

Lemma split_join (sep s : string) :
  sep ≠ "" → Js.join sep (Js.split sep s) = s.
Proof. intros Hsep. by apply (split_go_join sep Hsep (String.length s)). Qed.

Lemma split_go_no_sep (sep s cur : string) :
  ¬ Js.occurs sep s → Js.split_go sep 0 cur s = [cur +:+ s].
Proof.
  revert cur. induction s as [|c s IH]; intros cur Hno.
  - cbn. by rewrite append_nil_r.
  - destruct (String.prefix sep (String c s)) eqn:Hp.
    + destruct (prefix_split _ _ Hp) as [r Hr]. destruct Hno. by exists "", r.
    + rewrite (split_go_off_sep _ _ _ _ Hp), IH, append_assoc; [done|].
      intros (a & b & ->). apply Hno. by exists (String c a), b.
Qed.

Lemma split_go_sep_two (sep s cur : string) :
  sep ≠ "" → Js.occurs sep s →
  ∃ x y l, Js.split_go sep 0 cur s = x :: y :: l.
Proof.
  intros Hsep (a & b & ->). destruct sep as [|c0 sep'] eqn:Esep; [done|].
  rewrite <-Esep. clear Hsep.
  assert (∀ cur r, ∃ x y l,
            Js.split_go sep 0 cur (sep +:+ r) = x :: y :: l) as Hat.
  { intros cur' r. rewrite (split_go_at_sep sep c0 sep' cur' r Esep).
    destruct (split_go_cons sep 0 "" r) as (y & l & ->). by eexists _, _, _. }
  revert cur. induction a as [|c a IH]; intros cur; [apply Hat|].
  rewrite append_cons.
  destruct (String.prefix sep (String c (a +:+ sep +:+ b))) eqn:Hp.
  - destruct (prefix_split _ _ Hp) as [r ->]. apply Hat.
  - rewrite (split_go_off_sep _ _ _ _ Hp). apply IH.
Qed.

(** The second piece of a split, as the handler takes it with [[1]]. *)
Lemma split_second_none (sep s : string) :
  sep ≠ "" → Js.split sep s !! 1 = None ↔ ¬ Js.occurs sep s.
Proof.
  intros Hsep. unfold Js.split. split.
  - intros Hnone Hocc.
    destruct (split_go_sep_two sep s "" Hsep Hocc) as (x & y & l & Hx).
    by rewrite Hx in Hnone.
  - intros Hno. by rewrite split_go_no_sep.
Qed.

Lemma split_second_some (sep s name : string) :
  sep ≠ "" → Js.split sep s !! 1 = Some name →
  ∃ pre rest, s = pre +:+ sep +:+ name +:+ rest ∧
              (rest = "" ∨ ∃ r, rest = sep +:+ r).
Proof.
  intros Hsep Hname. pose proof (split_join sep s Hsep) as Hjoin.
  destruct (Js.split sep s) as [|x [|y l]]; try done.
  injection Hname as ->. rewrite join_cons in Hjoin. exists x.
  destruct l as [|z l].
  - exists "". rewrite append_nil_r. split; [done|by left].
  - rewrite join_cons in Hjoin. exists (sep +:+ Js.join sep (z :: l)).
    split; [done|]. right. by eexists.
Qed.

(** *** The tag hash and the network-interface id *)

(** X1: when the tag lookup is fulfilled with a tag list, the hash that
    [fetchTags] returns has, for every key other than [__proto__], an own
    entry exactly when a tag of the list carries the key, and the entry
    holds the value of the last such tag. *)
Theorem fetchTags_last_value (aws : AWS) (arn : option string)
    (resp : ListTagsResponse) (l : list Tag) (k : string) :
  ecs_listTagsForResource aws arn = Fulfilled (Some resp) →
  lt_tags resp = Some l →
  k ≠ "__proto__" →
  ∃ t hash,
    fetchTags aws arn = (t, Val hash) ∧
    hash !! k = tag_value <$> last (tags_for k l).
Proof.
  intros Hr Hl Hk. unfold fetchTags. rewrite Hr. cbn. rewrite Hl.
  eexists _, _. split; [reflexivity|]. by apply tags_reduce_lookup.
Qed.

Lemma fetchTags_last_value_witness :
  ∃ t hash,
    fetchTags Duplicated.aws (Some "arn") = (t, Val hash) ∧
    hash !! "domain" = Some (Some "new.example.org").
Proof.
  refine (fetchTags_last_value Duplicated.aws (Some "arn") Duplicated.tags
            _ "domain" eq_refl eq_refl _).
  discriminate.
Defined.

(** X2: an id that [getEniId] returns is the value of a detail named
    [networkInterfaceId] of an attachment of type [eni] of the task. *)
Theorem getEniId_sound (task : Task) (id : string) :
  getEniId task = Some id →
  ∃ atts a details d,
    task_attachments task = Some atts ∧ a ∈ atts ∧
    att_type a = Some "eni" ∧
    att_details a = Some details ∧ d ∈ details ∧
    kv_name d = Some "networkInterfaceId" ∧ kv_value d = Some id.
Proof.
  unfold getEniId. rewrite head_map_filter.
  destruct (list_find _ _) as [[i a]|] eqn:Ha; [|done].
  cbn. rewrite eniDetail_first.
  destruct (list_find _ (default [] (att_details a))) as [[j d]|] eqn:Hd;
    [|done].
  intros Hv. apply list_find_Some in Ha as (Hi & Ht & _).
  apply list_find_Some in Hd as (Hj & Hn & _).
  destruct (task_attachments task) as [atts|]; [|done].
  destruct (att_details a) as [details|] eqn:Hdetails; [|done].
  exists atts, a, details, d. cbn in *.
  repeat split; try done; by eapply list_elem_of_lookup_2.
Qed.

Lemma getEniId_sound_witness :
  ∃ atts a details d,
    task_attachments Sample.task = Some atts ∧ a ∈ atts ∧
    att_type a = Some "eni" ∧
    att_details a = Some details ∧ d ∈ details ∧
    kv_name d = Some "networkInterfaceId" ∧ kv_value d = Some "eni-1".
Proof. by apply (getEniId_sound Sample.task "eni-1"). Defined.

(** *** The three address lookups *)

(** X3: [fetchEniPublicIp] returns exactly when the client answers with
    a first network interface whose first private address has an
    association; it returns the [PublicIp] of that association and has sent
    the one request. *)
Theorem fetchEniPublicIp_returns (aws : AWS) (eniId : option string)
    (t : list Ev) (ip : option string) :
  fetchEniPublicIp aws eniId = (t, Val ip) ↔
  t = [Send (DescribeNetworkInterfaces [eniId]);
       Settle (DescribeNetworkInterfaces [eniId]) true] ∧
  ∃ data, ec2_describeNetworkInterfaces aws [eniId] = Fulfilled (Some data) ∧
          eni_answer data ip.
Proof.
  unfold eni_answer. outcome (fetchEniPublicIp aws eniId).
  unfold fetchEniPublicIp. cbn. repeat path_step.
  all: intros ? ? [= <- <-]; head_nonempty.
  all: split;
    [ intros [= <- <-]
    | intros (-> & data' & ? & ? & ? & ? & ? & ? & ? & ? & ? & ?) ];
    simplify_eq/=.
  all: eauto 12.
Qed.

(** X4: [fetchEC2PublicIp] returns in two cases only: when the client
    answers without data it logs the error line and returns [undefined];
    when the first reservation has a first instance it logs the answer and
    that instance's [PublicIpAddress] and returns the latter. *)
Theorem fetchEC2PublicIp_returns (aws : AWS) (instance : option string)
    (t : list Ev) (ip : option string) :
  let q := DescribeInstances [instance] in
  fetchEC2PublicIp aws instance = (t, Val ip) ↔
  (ec2_describeInstances aws [instance] = Fulfilled None ∧ ip = None ∧
   t = [Send q; Settle q true; Log (Line "Error describing Instance")]) ∨
  (∃ data,
     ec2_describeInstances aws [instance] = Fulfilled (Some data) ∧
     instance_answer data ip ∧
     t = [Send q; Settle q true;
          Log (Fmt "Received data from describe Instances: %j"
                   (ArgInstances data));
          Log (Fmt "Got Public Ip Address %s" (ArgStr ip))]).
Proof.
  intros q. unfold instance_answer, q. outcome (fetchEC2PublicIp aws instance).
  unfold fetchEC2PublicIp. cbn. repeat path_step.
  all: intros ? ? [= <- <-]; head_nonempty.
  all: split;
    [ intros [= <- <-]
    | intros [(? & -> & ->) | (data' & ? & (? & ? & ? & ? & ? & ? & ?) & ->)] ];
    simplify_eq/=.
  all: eauto 12.
Qed.

(** X14: when [fetchEniPublicIp] throws, either the client has rejected
    the request and the error is the client's, or the answer lacks the path
    to an association and the exception is a TypeError. *)
Theorem fetchEniPublicIp_throws (aws : AWS) (eniId : option string)
    (t : list Ev) (e : Exn) :
  fetchEniPublicIp aws eniId = (t, Throw e) →
  (∃ err, ec2_describeNetworkInterfaces aws [eniId] = Rejected err ∧
          e = AwsError err) ∨
  (∃ data what,
     ec2_describeNetworkInterfaces aws [eniId] = Fulfilled data ∧
     e = TypeError what ∧
     ∀ d ip, data = Some d → ¬ eni_answer d ip).
Proof.
  unfold eni_answer. outcome (fetchEniPublicIp aws eniId).
  unfold fetchEniPublicIp. cbn. repeat path_step.
  all: intros ? ? [= <- <-] [= <- <-]; head_nonempty.
  all: first
    [ left; by eexists
    | right; eexists _, _; split; [reflexivity|]; split; [reflexivity|];
      intros d ip ? (? & ? & ? & ? & ? & ? & ? & ? & ?); by simplify_eq/= ].
Qed.

Lemma fetchEniPublicIp_throws_witness :
  (∃ err, ec2_describeNetworkInterfaces Unlinked.aws [Some "eni-1"]
            = Rejected err ∧
          TypeError
            "data.NetworkInterfaces[0].PrivateIpAddresses[0].Association.PublicIp"
          = AwsError err) ∨
  (∃ data what,
     ec2_describeNetworkInterfaces Unlinked.aws [Some "eni-1"]
       = Fulfilled data ∧
     TypeError
       "data.NetworkInterfaces[0].PrivateIpAddresses[0].Association.PublicIp"
     = TypeError what ∧
     ∀ d ip, data = Some d → ¬ eni_answer d ip).
Proof.
  eapply (fetchEniPublicIp_throws Unlinked.aws (Some "eni-1")).
  reflexivity.
Defined.

(** X5: a value that [fetchContainerPublicIp] returns is [undefined] or a
    non-empty string: it is the value [fetchEC2PublicIp] returned for the
    [ec2InstanceId] of the first container instance, with a falsy one
    replaced by [undefined]; the two requests sent are the container-instance
    lookup and the instance lookup for that id. *)
Theorem fetchContainerPublicIp_returns (aws : AWS)
    (cis : list (option string)) (cluster : option string)
    (t : list Ev) (ip : option string) :
  fetchContainerPublicIp aws cis cluster = (t, Val ip) →
  (ip = None ∨ Js.truthy ip = true) ∧
  ∃ data ci rest t' ip',
    ecs_describeContainerInstances aws cis cluster = Fulfilled (Some data) ∧
    cir_containerInstances data = Some (ci :: rest) ∧
    Js.truthy (ci_ec2InstanceId ci) = true ∧
    fetchEC2PublicIp aws (ci_ec2InstanceId ci) = (t', Val ip') ∧
    ip = (if Js.truthy ip' then ip' else None) ∧
    sent t = [DescribeContainerInstances cis cluster;
              DescribeInstances [ci_ec2InstanceId ci]].
Proof.
  outcome (fetchContainerPublicIp aws cis cluster).
  unfold fetchContainerPublicIp. cbn. repeat path_step.
  all: intros ? ? [= <- <-] [= <- <-]; head_nonempty.
  all: repeat match goal with
         | H : negb _ = false |- _ => apply negb_false_iff in H
         | H : negb _ = true |- _ => apply negb_true_iff in H
         end.
  all: match goal with
       | Hc : cir_containerInstances ?c = Some (?c0 :: ?l),
         H : fetchEC2PublicIp _ _ = (?t', Val ?a) |- _ =>
           split; [|exists c, c0, l, t', a]
       end.
  all: try (by left); try (by right).
  all: repeat (split; [done|]).
  all: match goal with H : Js.truthy ?a = _ |- context [Js.truthy ?a] =>
         rewrite H end.
  all: split; [done|].
  all: match goal with
       | H : fetchEC2PublicIp _ _ = _ |- _ =>
           apply fetchEC2PublicIp_returns in H
             as [(_ & _ & ->) | (? & _ & _ & ->)]
       end.
  all: reflexivity.
Qed.

Lemma fetchContainerPublicIp_returns_witness :
  let cis := [task_containerInstanceArn Private.task] in
  let cluster := task_clusterArn Private.task in
  let t := (fetchContainerPublicIp Sample.aws cis cluster).1 in
  let ip := Some "198.51.100.9" in
  (ip = None ∨ Js.truthy ip = true) ∧
  ∃ data ci rest t' ip',
    ecs_describeContainerInstances Sample.aws cis cluster
      = Fulfilled (Some data) ∧
    cir_containerInstances data = Some (ci :: rest) ∧
    Js.truthy (ci_ec2InstanceId ci) = true ∧
    fetchEC2PublicIp Sample.aws (ci_ec2InstanceId ci) = (t', Val ip') ∧
    ip = (if Js.truthy ip' then ip' else None) ∧
    sent t = [DescribeContainerInstances cis cluster;
              DescribeInstances [ci_ec2InstanceId ci]].
Proof.
  intros cis cluster t ip.
  apply (fetchContainerPublicIp_returns Sample.aws cis cluster t ip).
  reflexivity.
Defined.

(** X6: when the container-instance lookup is answered without data, or
    with a first container instance whose [ec2InstanceId] is falsy,
    [fetchContainerPublicIp] throws a ReferenceError: it has sent its one
    request, never asks for an instance, and logs none of its messages
    about a failure. *)
Theorem fetchContainerPublicIp_reference_error (aws : AWS)
    (cis : list (option string)) (cluster : option string) :
  ecs_describeContainerInstances aws cis cluster = Fulfilled None ∨
  (∃ data ci rest,
     ecs_describeContainerInstances aws cis cluster = Fulfilled (Some data) ∧
     cir_containerInstances data = Some (ci :: rest) ∧
     Js.truthy (ci_ec2InstanceId ci) = false) →
  ∃ t name,
    fetchContainerPublicIp aws cis cluster = (t, Throw (ReferenceError name)) ∧
    sent t = [DescribeContainerInstances cis cluster] ∧
    ∀ l, Log (Line l) ∈ t → ∃ id, l = "Fetched ec2InstanceId " +:+ id.
Proof.
  unfold fetchContainerPublicIp.
  intros [-> | (data & ci & rest & -> & Hci & Hid)]; cbn.
  - eexists _, _. split; [reflexivity|]. split; [done|].
    intros l Hin. apply list_elem_of_In in Hin. cbn in Hin.
    by destruct Hin as [?|[?|[]]].
  - rewrite Hci. cbn. rewrite Hid. cbn.
    eexists _, _. split; [reflexivity|]. split; [done|].
    intros l Hin. apply list_elem_of_In in Hin. cbn in Hin.
    destruct Hin as [?|[?|[[= <-]|[]]]]; try done. by eexists.
Qed.

Lemma fetchContainerPublicIp_reference_error_witness :
  ∃ t name,
    fetchContainerPublicIp Detached.aws [Some "c1"] (Some "web")
      = (t, Throw (ReferenceError name)) ∧
    sent t = [DescribeContainerInstances [Some "c1"] (Some "web")] ∧
    ∀ l, Log (Line l) ∈ t → ∃ id, l = "Fetched ec2InstanceId " +:+ id.
Proof.
  apply (fetchContainerPublicIp_reference_error Detached.aws).
  right. by eexists _, _, _.
Defined.

(** *** Outcomes of an invocation *)

(** X7: when the address lookup of an invocation throws, the handler
    throws the same exception directly after it: the tag lookup and the
    requests of the address lookup are all it has sent, and no DNS change is
    among them. *)
Theorem failed_lookup_fails_invocation (aws : AWS) (event : Event)
    (task : Task) (arn : string) (resp : ListTagsResponse)
    (t : list Ev) (e : Exn) :
  ev_detail event = Some task →
  task_clusterArn task = Some arn →
  ecs_listTagsForResource aws (task_taskArn task) = Fulfilled (Some resp) →
  ¬ lacks (tags_reduce (lt_tags resp)) "domain" →
  ¬ lacks (tags_reduce (lt_tags resp)) "hostedZoneId" →
  lookup_outcome aws task t (Throw e) →
  ∃ pre,
    handler aws event = (pre ++ t, Throw e) ∧
    sent pre = [ListTagsForResource (task_taskArn task)] ∧
    dns_changes (pre ++ t) = [].
Proof.
  intros Hd Hc Ht Hdom Hhz Hip.
  rewrite lacks_falsy in Hdom, Hhz.
  apply not_false_is_true in Hdom, Hhz.
  unfold lookup_outcome in Hip.
  unfold handler, resolve, submit, fetchTags.
  rewrite Hd, Hc. cbn. rewrite Ht. cbn. rewrite Hdom, Hhz. cbn.
  destruct (Js.truthy (getEniId task)).
  - rewrite Hip. cbn. apply fetchEniPublicIp_sent in Hip as [_ Hn].
    eexists (_ :: _ :: _ :: _ :: _ :: [_]). split; [reflexivity|].
    split; [done|]. by rewrite dns_changes_app, Hn.
  - destruct Hip as [-> Hip]. rewrite Hc in Hip. rewrite Hip. cbn.
    apply fetchContainerPublicIp_sent in Hip as [_ Hn].
    eexists (_ :: _ :: _ :: _ :: _ :: [_]). split; [reflexivity|].
    split; [done|]. by rewrite dns_changes_app, Hn.
Qed.

Lemma failed_lookup_fails_invocation_witness :
  ∃ pre,
    handler Detached.aws Private.event =
      (pre ++ (fetchContainerPublicIp Detached.aws
                 [task_containerInstanceArn Private.task]
                 (task_clusterArn Private.task)).1,
       Throw (ReferenceError "instance")) ∧
    sent pre = [ListTagsForResource (task_taskArn Private.task)] ∧
    dns_changes
      (pre ++ (fetchContainerPublicIp Detached.aws
                 [task_containerInstanceArn Private.task]
                 (task_clusterArn Private.task)).1) = [].
Proof.
  refine (failed_lookup_fails_invocation Detached.aws Private.event
            Private.task _ Sample.tags _ _ eq_refl eq_refl eq_refl _ _ _);
    [has_value | has_value |].
  split; reflexivity.
Defined.

(** X8: the promise of the handler is fulfilled in three situations only:
    after the skip line, after the line that no address could be fetched
    (both without a DNS change), or after a DNS change that has been
    fulfilled, with the line that the update is finished as the last one. *)
Theorem handler_fulfilled_cases (aws : AWS) (event : Event) (tr : list Ev) :
  handler aws event = (tr, Val tt) →
  ∃ task,
    ev_detail event = Some task ∧
    (last tr = Some (Log (skip_line (task_clusterArn task))) ∧
       dns_changes tr = [] ∨
     last tr = Some (Log (Line "Could not fetch public IP for this task")) ∧
       dns_changes tr = [] ∨
     ∃ p domain ip,
       dns_changes tr = [p] ∧
       Settle (ChangeResourceRecordSets p) true ∈ tr ∧
       cb_Changes (cp_ChangeBatch p) = [upsert_of domain ip] ∧
       last tr = Some (Log (finished_line domain ip))).
Proof.
  outcome (handler aws event). paths.
  all: intros ? ? [= <- <-] Heq; try discriminate Heq.
  all: injection Heq as <-; eexists; (split; [reflexivity|]).
  all: repeat match goal with
         | H : task_clusterArn _ = _ |- _ => rewrite H
         end.
  all: first
    [ left; split; reflexivity
    | right; left; split; reflexivity
    | right; right; eexists _, _, _; split; [reflexivity|];
      split; [in_trace|]; split; reflexivity ].
Qed.

(** X9: once the handler has sent its DNS change, its outcome is the
    outcome of that request: fulfilled when the client fulfils it, rejected
    with the error of the client otherwise. *)
Theorem outcome_follows_change (aws : AWS) (event : Event) (p : ChangeParam) :
  p ∈ dns_changes (handler aws event).1 →
  (handler aws event).2 =
    match route53_changeResourceRecordSets aws p with
    | Fulfilled _ => Val tt
    | Rejected err => Throw (AwsError err)
    end.
Proof.
  destruct (handler aws event) as [tr res] eqn:Hh. revert tr res Hh. paths.
  all: intros ? ? [= <- <-] Hin; cbn in Hin.
  all: try (by apply elem_of_nil in Hin).
  all: apply list_elem_of_singleton in Hin as ->.
  all: by match goal with
          | H : route53_changeResourceRecordSets _ _ = _ |- _ => rewrite H
          end.
Qed.

(** X10: the operations an invocation calls are an initial part of
    tag lookup, network-interface lookup, DNS change, or of tag lookup,
    container-instance lookup, instance lookup, DNS change: each operation
    at most once, at most four requests, and never both kinds of address
    lookup. *)
Theorem requests_follow_one_path (aws : AWS) (event : Event) :
  let ops := map operation (sent (handler aws event).1) in
  ops `prefix_of` [ListTags; DescribeNIs; ChangeRRSets] ∨
  ops `prefix_of` [ListTags; DescribeCIs; DescribeIs; ChangeRRSets].
Proof.
  destruct (handler aws event) as [tr res] eqn:Hh. revert tr res Hh. paths.
  all: intros ? ? [= <- <-]; cbn.
  all: first [ left; repeat apply prefix_cons; by apply prefix_nil
             | right; repeat apply prefix_cons; by apply prefix_nil ].
Qed.

Lemma handler_fulfilled_cases_witness :
  let tr := (handler Sample.aws Sample.event).1 in
  ∃ task,
    ev_detail Sample.event = Some task ∧
    (last tr = Some (Log (skip_line (task_clusterArn task))) ∧
       dns_changes tr = [] ∨
     last tr = Some (Log (Line "Could not fetch public IP for this task")) ∧
       dns_changes tr = [] ∨
     ∃ p domain ip,
       dns_changes tr = [p] ∧
       Settle (ChangeResourceRecordSets p) true ∈ tr ∧
       cb_Changes (cp_ChangeBatch p) = [upsert_of domain ip] ∧
       last tr = Some (Log (finished_line domain ip))).
Proof.
  intros tr. apply (handler_fulfilled_cases Sample.aws Sample.event tr).
  reflexivity.
Defined.

Lemma outcome_follows_change_witness :
  (handler Sample.aws Sample.event).2 = Val tt.
Proof.
  apply (outcome_follows_change Sample.aws Sample.event sample_change).
  vm_compute. left.
Defined.

(** X11: the handler either starts with the tag lookup for the task's
    [taskArn], which is the case exactly when the event has a [detail] with
    a [clusterArn], or throws a TypeError without having sent anything. *)
Theorem tag_lookup_needs_cluster_arn (aws : AWS) (event : Event) :
  (∃ task arn,
     ev_detail event = Some task ∧ task_clusterArn task = Some arn ∧
     head (sent (handler aws event).1)
       = Some (ListTagsForResource (task_taskArn task))) ∨
  ((ev_detail event = None ∨
    ∃ task, ev_detail event = Some task ∧ task_clusterArn task = None) ∧
   ∃ tr what,
     handler aws event = (tr, Throw (TypeError what)) ∧ sent tr = []).
Proof.
  destruct (handler aws event) as [tr res] eqn:Hh. revert tr res Hh. paths.
  all: intros ? ? [= <- <-]; cbn.
  all: first
    [ left; eexists _, _; split; [reflexivity|]; split; [eassumption|];
      reflexivity
    | right; split; [by left|]; by eexists _, _
    | right; split; [right; by eexists|]; by eexists _, _ ].
Qed.

(** X12: the comment of a submitted DNS change ends with [undefined] when
    the [clusterArn] contains no [:cluster/], and otherwise with a piece of
    the [clusterArn] that directly follows a [:cluster/] and runs to the end
    of the string or to a further [:cluster/]. *)
Theorem comment_names_cluster (aws : AWS) (event : Event) (p : ChangeParam) :
  p ∈ dns_changes (handler aws event).1 →
  ∃ task arn,
    ev_detail event = Some task ∧ task_clusterArn task = Some arn ∧
    (¬ Js.occurs ":cluster/" arn ∧
       cb_Comment (cp_ChangeBatch p)
         = "Auto generated Record for ECS cluster undefined" ∨
     ∃ pre name rest,
       arn = pre +:+ ":cluster/" +:+ name +:+ rest ∧
       (rest = "" ∨ ∃ r, rest = ":cluster/" +:+ r) ∧
       cb_Comment (cp_ChangeBatch p)
         = "Auto generated Record for ECS cluster " +:+ name).
Proof.
  intros Hp.
  destruct (handler_dns_changes aws event)
    as [Hnone | (task & arn & tags & t & ip & Hd & Hc & _ & _ & _ & _ & _
                 & Hone)].
  { rewrite Hnone in Hp. by apply elem_of_nil in Hp. }
  rewrite Hone in Hp. apply list_elem_of_singleton in Hp as ->.
  exists task, arn. split; [done|]. split; [done|]. cbn.
  destruct (Js.split ":cluster/" arn !! 1) as [name|] eqn:Hname.
  - right. apply split_second_some in Hname as (pre & rest & ? & ?); [|done].
    by exists pre, name, rest.
  - left. by apply split_second_none in Hname.
Qed.

Lemma comment_names_cluster_witness :
  ∃ task arn,
    ev_detail Sample.event = Some task ∧ task_clusterArn task = Some arn ∧
    (¬ Js.occurs ":cluster/" arn ∧
       cb_Comment (cp_ChangeBatch sample_change)
         = "Auto generated Record for ECS cluster undefined" ∨
     ∃ pre name rest,
       arn = pre +:+ ":cluster/" +:+ name +:+ rest ∧
       (rest = "" ∨ ∃ r, rest = ":cluster/" +:+ r) ∧
       cb_Comment (cp_ChangeBatch sample_change)
         = "Auto generated Record for ECS cluster " +:+ name).
Proof.
  apply (comment_names_cluster Sample.aws Sample.event sample_change).
  vm_compute. left.
Defined.

(** X13: of the tags the handler reads [domain] and [hostedZoneId] only:
    two worlds whose tag lists agree on these two values, and whose other
    clients are the same, give the same trace and the same outcome. *)
Theorem other_tags_are_ignored (aws1 aws2 : AWS) (event : Event)
    (task : Task) (resp1 resp2 : ListTagsResponse) :
  ev_detail event = Some task →
  ecs_listTagsForResource aws1 (task_taskArn task) = Fulfilled (Some resp1) →
  ecs_listTagsForResource aws2 (task_taskArn task) = Fulfilled (Some resp2) →
  (∀ k, k = "domain" ∨ k = "hostedZoneId" →
        tags_get (tags_reduce (lt_tags resp1)) k
        = tags_get (tags_reduce (lt_tags resp2)) k) →
  ec2_describeNetworkInterfaces aws1 = ec2_describeNetworkInterfaces aws2 →
  ecs_describeContainerInstances aws1 = ecs_describeContainerInstances aws2 →
  ec2_describeInstances aws1 = ec2_describeInstances aws2 →
  route53_changeResourceRecordSets aws1
    = route53_changeResourceRecordSets aws2 →
  handler aws1 event = handler aws2 event.
Proof.
  intros Hd H1 H2 Hk Hni Hci Hi Hch.
  unfold_handler. rewrite Hd. cbn.
  destruct (task_clusterArn task); cbn; [|done].
  rewrite H1, H2. cbn.
  rewrite !(Hk "domain"), !(Hk "hostedZoneId") by auto.
  by rewrite Hni, Hci, Hi, Hch.
Qed.

Lemma other_tags_are_ignored_witness :
  handler Sample.aws Sample.event = handler Labelled.aws Sample.event.
Proof.
  refine (other_tags_are_ignored Sample.aws Labelled.aws Sample.event
            Sample.task Sample.tags Labelled.tags eq_refl eq_refl eq_refl _
            eq_refl eq_refl eq_refl eq_refl).
  intros k [-> | ->]; vm_compute; reflexivity.
Defined.
